(** * FitTrack authentication core: a shallow embedding and its properties

    The development follows the layout of the Python package:

    - [Py]             the fragment of Python's data the code manipulates
                       (text as code points, dict literals, exceptions);
    - [Calendar]       [datetime.date], [datetime.datetime], [timedelta];
    - [Schema]         a row of the [users] table;
    - [Runtime]        the process state the code reads and writes
                       (session, clock, entropy) and the monad of state
                       and exceptions;
    - [UserModel]      fittrack/models/user.py;
    - [Uuid], [Utf8], [Platform], [Bcrypt], [Jose]
                       the library code the package calls;
    - [Authentication] fittrack/security/authentication.py;
    - [Authorization]  fittrack/security/authorization.py;
    - [AuthSvc]        fittrack/services/auth_service.py;
    - [Parts], [Wording], [Sample]
                       named pieces of the functions, the specification's
                       wording of some operations, and concrete data;
    - [BaseModel]      fittrack/models/base.py;
    - [Routes]         fittrack/api/routes/v1/auth.py;
    - [Parts2], [Sample2]
                       more named pieces and concrete data.

    Definitions come first, module by module; the theorems follow. *)

From Stdlib Require Import ZArith NArith List String Ascii Bool Lia.
From Stdlib Require Import DecimalString.
Import ListNotations.

Local Open Scope Z_scope.

(* ===================================================================== *)
(** ** Python data *)
(* ===================================================================== *)

Module Py.

(** A Python [str] is a sequence of Unicode code points. *)
Definition str := list N.

(** String literals of the source (all of them ASCII). *)
Definition lit (s : string) : str :=
  List.map N_of_ascii (list_ascii_of_string s).

(** [a == b] on [str]. *)
Fixpoint str_eqb (a b : str) : bool :=
  match a, b with
  | [], [] => true
  | x :: a', y :: b' => N.eqb x y && str_eqb a' b'
  | _, _ => false
  end.

(** [len(s)]. *)
Definition len (s : str) : Z := Z.of_nat (List.length s).

(** [sep.join(parts)]. *)
Fixpoint join (sep : str) (parts : list str) : str :=
  match parts with
  | [] => []
  | [p] => p
  | p :: rest => p ++ sep ++ join sep rest
  end.

(** [x in xs] for a tuple or set of strings. *)
Definition str_in (x : str) (xs : list str) : bool :=
  existsb (str_eqb x) xs.

(** The values that appear in the dict literals of the source. A
    [datetime] is kept as microseconds since the epoch, a [UUID] as its
    128-bit integer. A compact JWS string produced by [jose.jwt.encode]
    is kept symbolic: its header algorithm, its claims and the key pair
    whose private half signed it. *)
#[warnings="-register-all"]
Inductive value : Type :=
| VNone
| VBool (b : bool)
| VInt (z : Z)
| VStr (s : str)
| VTime (us : Z)
| VUuid (n : N)
| VDict (d : list (string * value))
| VJws (alg : str) (claims : list (string * value)) (signer : N).

(** A dict literal, in the order its keys are written. *)
Definition dict := list (string * value).

(** [fastapi.HTTPException]. *)
Record http_exception := HTTPException {
  status_code : Z;
  detail : str;
  headers : dict
}.

(** The exceptions the modelled code can raise. *)
Inductive exn : Type :=
| ValueError (msg : str)
| OverflowError
| UnicodeEncodeError
| UnicodeDecodeError
| JWTError
| KeyError (k : string)
| TypeError
| AttributeError
| HTTPError (e : http_exception).

(** The outcome of a call: a returned value or a raised exception. *)
Inductive outcome (A : Type) : Type :=
| Ret (a : A)
| Raise (e : exn).
Arguments Ret {A} a.
Arguments Raise {A} e.


(** [d.get(k)]. *)
Fixpoint get (d : dict) (k : string) : option value :=
  match d with
  | [] => None
  | (k', v) :: d' => if String.eqb k k' then Some v else get d' k
  end.

(** [d[k]]. *)
Definition item (d : dict) (k : string) : outcome value :=
  match get d k with
  | Some v => Ret v
  | None => Raise (KeyError k)
  end.

(** [str(n)] for an [int]. *)
Definition str_of_int (z : Z) : str :=
  lit (NilZero.string_of_int (Z.to_int z)).

(** Python truthiness, as used by [if not x]. *)
Definition truthy (v : value) : bool :=
  match v with
  | VNone => false
  | VBool b => b
  | VInt z => negb (z =? 0)
  | VStr s => match s with [] => false | _ => true end
  | VTime _ => true
  | VUuid _ => true
  | VDict d => match d with [] => false | _ => true end
  | VJws _ _ _ => true
  end.

End Py.

Notation "'py' s" := (Py.lit s%string) (at level 9, s at level 0, only parsing).

(* ===================================================================== *)
(** ** Calendar: [datetime.date], [datetime.datetime], [timedelta] *)
(* ===================================================================== *)

Module Calendar.

(** [datetime.date]: proleptic Gregorian year, month, day. *)
Record date := mkDate { year : Z; month : Z; day : Z }.

Definition is_leap (y : Z) : bool :=
  (y mod 4 =? 0) && (negb (y mod 100 =? 0) || (y mod 400 =? 0)).

Definition days_in_month (y m : Z) : Z :=
  if m =? 2 then (if is_leap y then 29 else 28)
  else if (m =? 4) || (m =? 6) || (m =? 9) || (m =? 11) then 30
  else 31.

(** The dates a [date] object can hold (MINYEAR = 1, MAXYEAR = 9999). *)
Definition valid_date (d : date) : bool :=
  (1 <=? year d) && (year d <=? 9999) &&
  (1 <=? month d) && (month d <=? 12) &&
  (1 <=? day d) && (day d <=? days_in_month (year d) (month d)).

(** Tuple comparison [(m1, d1) < (m2, d2)]. *)
Definition pair_ltb (a b : Z * Z) : bool :=
  (fst a <? fst b) || ((fst a =? fst b) && (snd a <? snd b)).

(** Date order [d1 <= d2]: lexicographic on (year, month, day). *)
Definition date_leb (a b : date) : bool :=
  (year a <? year b) ||
  ((year a =? year b) &&
   negb (pair_ltb (month b, day b) (month a, day a))).

(** [d + timedelta(days=1)], [None] past [date.max] (OverflowError). *)
Definition next_day (d : date) : option date :=
  if day d <? days_in_month (year d) (month d) then
    Some (mkDate (year d) (month d) (day d + 1))
  else if month d <? 12 then
    Some (mkDate (year d) (month d + 1) 1)
  else if year d <? 9999 then
    Some (mkDate (year d + 1) 1 1)
  else None.

(** [timedelta(days=.., minutes=..)] as a number of microseconds. *)
Definition timedelta (days minutes : Z) : Z :=
  (days * 86400 + minutes * 60) * 1000000.

(** [datetime.max] in microseconds since the epoch
    (9999-12-31T23:59:59.999999Z), and [datetime.min]. *)
Definition datetime_max : Z := 253402300799999999.
Definition datetime_min : Z := -62135596800000000.

(** [dt + delta]: OverflowError outside [datetime.min, datetime.max]. *)
Definition datetime_add (dt delta : Z) : Py.outcome Z :=
  let r := dt + delta in
  if (datetime_min <=? r) && (r <=? datetime_max) then Py.Ret r
  else Py.Raise Py.OverflowError.

(** [calendar.timegm(dt.utctimetuple())]: whole seconds since the epoch. *)
Definition timegm (dt : Z) : Z := dt / 1000000.

End Calendar.

(* ===================================================================== *)
(** ** The [users] table *)
(* ===================================================================== *)

Module Schema.

(** What [user.user_id] can be at run time. The primary key is a
    [String(36)] column, so a row loaded from or added to the table
    carries a [str]; a [uuid.UUID] object is the other case the service
    code tests for with [isinstance]. *)
Inductive ident : Type :=
| IdStr (s : Py.str)
| IdUuid (n : N).

Definition ident_value (i : ident) : Py.value :=
  match i with
  | IdStr s => Py.VStr s
  | IdUuid n => Py.VUuid n
  end.

(** One row of [users] (fittrack/models/user.py, class [User]).
    Nullable columns are options. *)
Record User := mkUser {
  user_id : ident;
  email : Py.str;
  password_hash : Py.str;
  email_verified : bool;
  email_verified_at : option Z;
  status : Py.str;
  role : Py.str;
  premium_expires_at : option Z;
  point_balance : Z;
  last_login_at : option Z
}.

Definition set_last_login_at (u : User) (t : Z) : User :=
  mkUser (user_id u) (email u) (password_hash u) (email_verified u)
         (email_verified_at u) (status u) (role u) (premium_expires_at u)
         (point_balance u) (Some t).

End Schema.

(* ===================================================================== *)
(** ** Process state and the monad of the service code *)
(* ===================================================================== *)

Module Runtime.
Import Py Schema.

(** What a call can observe and change: the SQLAlchemy session (the rows
    it holds, oldest first), the UTC clock (the n-th read of
    [datetime.now] returns [clock n]), the local calendar date of
    [date.today], and the operating system's entropy (the n-th draw of
    16 random bytes, as an integer). *)
Record world := mkWorld {
  session : list User;
  clock : nat -> Z;
  clock_reads : nat;
  today : Calendar.date;
  entropy : nat -> N;
  entropy_reads : nat
}.

Definition M (A : Type) : Type := world -> outcome A * world.

Definition ret {A} (a : A) : M A := fun w => (Ret a, w).

Definition raise {A} (e : exn) : M A := fun w => (Raise e, w).

Definition bind {A B} (m : M A) (k : A -> M B) : M B :=
  fun w =>
    match m w with
    | (Ret a, w') => k a w'
    | (Raise e, w') => (Raise e, w')
    end.

(** [try: m except JWTError: h]. *)
Definition except_JWTError {A} (m : M A) (h : M A) : M A :=
  fun w =>
    match m w with
    | (Raise JWTError, w') => h w'
    | r => r
    end.

(** A pure computation that may raise, run inside [M]. *)
Definition lift {A} (o : outcome A) : M A := fun w => (o, w).

(** [datetime.now(UTC)]. *)
Definition datetime_now : M Z :=
  fun w => (Ret (clock w (clock_reads w)),
            mkWorld (session w) (clock w) (S (clock_reads w)) (today w)
                    (entropy w) (entropy_reads w)).

(** [date.today()]. *)
Definition date_today : M Calendar.date := fun w => (Ret (today w), w).

(** [os.urandom(16)], read as a big-endian integer. *)
Definition urandom16 : M N :=
  fun w => (Ret (N.modulo (entropy w (entropy_reads w)) (2 ^ 128)),
            mkWorld (session w) (clock w) (clock_reads w) (today w)
                    (entropy w) (S (entropy_reads w))).

(** [db.query(User).filter(p).first()]: the first row satisfying [p],
    with its position in the session. *)
Fixpoint first_from (p : User -> bool) (i : nat) (rows : list User)
  : option (nat * User) :=
  match rows with
  | [] => None
  | u :: rest => if p u then Some (i, u) else first_from p (S i) rest
  end.

Definition query_first (p : User -> bool) : M (option (nat * User)) :=
  fun w => (Ret (first_from p 0 (session w)), w).

(** [db.add(user)]. *)
Definition session_add (u : User) : M unit :=
  fun w => (Ret tt,
            mkWorld (session w ++ [u]) (clock w) (clock_reads w) (today w)
                    (entropy w) (entropy_reads w)).

Fixpoint replace_nth (i : nat) (u : User) (rows : list User) : list User :=
  match rows, i with
  | [], _ => []
  | _ :: rest, O => u :: rest
  | r :: rest, S j => r :: replace_nth j u rest
  end.

(** An attribute assignment on a row object the session holds: the row at
    that position now reads as the changed object. *)
Definition session_store (i : nat) (u : User) : M unit :=
  fun w => (Ret tt,
            mkWorld (replace_nth i u (session w)) (clock w) (clock_reads w)
                    (today w) (entropy w) (entropy_reads w)).

End Runtime.

Declare Scope py_scope.
Delimit Scope py_scope with pym.
Notation "x <- m ;; k" := (Runtime.bind m (fun x => k))
  (at level 61, m at next level, right associativity) : py_scope.
Notation "m ;;; k" := (Runtime.bind m (fun _ => k))
  (at level 61, right associativity) : py_scope.

(** Unfolds the plumbing of the monad in a goal. *)
Ltac run_monad :=
  unfold Runtime.bind, Runtime.ret, Runtime.lift, Runtime.raise,
    Runtime.query_first, Runtime.date_today.

(* ===================================================================== *)
(** ** fittrack/models/user.py: methods of [User] *)
(* ===================================================================== *)

Module UserModel.
Import Py Schema Runtime.
Local Open Scope py_scope.

(** [User.verify_email]. *)
Definition verify_email (self : User) : M User :=
  now <- datetime_now ;;
  ret (mkUser (user_id self) (email self) (password_hash self)
              true
              (Some now)
              (if str_eqb (status self) (py "pending")
               then py "active" else status self)
              (role self) (premium_expires_at self)
              (point_balance self) (last_login_at self)).

(** [User.is_active]. *)
Definition is_active (self : User) : bool :=
  str_eqb (status self) (py "active").

(** [User.is_premium]: a naive timestamp is read as UTC, so both cases of
    the source's normalisation give the same instant. *)
Definition is_premium (self : User) : M bool :=
  if negb (str_eqb (role self) (py "premium")) then ret false
  else match premium_expires_at self with
       | None => ret false
       | Some expires_at =>
           now <- datetime_now ;;
           ret (now <? expires_at)
       end.

End UserModel.

(* ===================================================================== *)
(** ** Library code the package calls *)
(* ===================================================================== *)

(** [uuid.uuid4] and [str(UUID)] of the standard library. *)
Module Uuid.
Import Py Runtime.
Local Open Scope py_scope.

(** [UUID(bytes=os.urandom(16), version=4)]: the variant and version bits
    are overwritten as [UUID.__init__] does. *)
Definition set_version4 (n : N) : N :=
  let n := N.ldiff n (N.shiftl 0xc000 48) in
  let n := N.lor n (N.shiftl 0x8000 48) in
  let n := N.ldiff n (N.shiftl 0xf000 64) in
  N.lor n (N.shiftl 4 76).

Definition uuid4 : M N :=
  r <- urandom16 ;;
  ret (set_version4 r).

Definition hex_digit (d : N) : N :=
  if N.ltb d 10 then N.add 48 d else N.add 87 d.

Fixpoint hex_digits (k : nat) (n : N) (acc : str) : str :=
  match k with
  | O => acc
  | S k' => hex_digits k' (N.div n 16) (hex_digit (N.modulo n 16) :: acc)
  end.

(** [str(u)]: 32 hex digits grouped 8-4-4-4-12. *)
Definition to_str (n : N) : str :=
  let h := hex_digits 32 n [] in
  let dash := py "-" in
  firstn 8 h ++ dash ++ firstn 4 (skipn 8 h) ++ dash ++
  firstn 4 (skipn 12 h) ++ dash ++ firstn 4 (skipn 16 h) ++ dash ++
  skipn 20 h.

End Uuid.

(** [str.encode("utf-8")] and [bytes.decode("utf-8")]. Bytes are numbers
    below 256. *)
Module Utf8.
Import Py.
Local Open Scope N_scope.

Definition bytes := list N.

Definition encode_char (c : N) : option bytes :=
  if c <? 0x80 then Some [c]
  else if c <? 0x800 then Some [0xC0 + c / 64; 0x80 + c mod 64]
  else if (0xD800 <=? c) && (c <=? 0xDFFF) then None
  else if c <? 0x10000 then
    Some [0xE0 + c / 4096; 0x80 + (c / 64) mod 64; 0x80 + c mod 64]
  else if c <? 0x110000 then
    Some [0xF0 + c / 262144; 0x80 + (c / 4096) mod 64;
          0x80 + (c / 64) mod 64; 0x80 + c mod 64]
  else None.

Fixpoint encode (s : str) : outcome bytes :=
  match s with
  | [] => Ret []
  | c :: rest =>
      match encode_char c, encode rest with
      | Some bs, Ret more => Ret (bs ++ more)
      | None, _ => Raise UnicodeEncodeError
      | _, Raise e => Raise e
      end
  end.

Definition cont (b : N) : bool := (0x80 <=? b) && (b <? 0xC0).

Fixpoint decode (bs : bytes) : outcome str :=
  let push (c : N) (tail : outcome str) : outcome str :=
    match tail with
    | Ret s => Ret (c :: s)
    | Raise e => Raise e
    end in
  match bs with
  | [] => Ret []
  | b0 :: r0 =>
      if b0 <? 0x80 then push b0 (decode r0)
      else match r0 with
      | b1 :: r1 =>
          if (0xC2 <=? b0) && (b0 <? 0xE0) && cont b1 then
            push ((b0 - 0xC0) * 64 + (b1 - 0x80)) (decode r1)
          else match r1 with
          | b2 :: r2 =>
              let c3 := (b0 - 0xE0) * 4096 + (b1 - 0x80) * 64 + (b2 - 0x80) in
              if (0xE0 <=? b0) && (b0 <? 0xF0) && cont b1 && cont b2 &&
                 (0x800 <=? c3) && negb ((0xD800 <=? c3) && (c3 <=? 0xDFFF))
              then push c3 (decode r2)
              else match r2 with
              | b3 :: r3 =>
                  let c4 := (b0 - 0xF0) * 262144 + (b1 - 0x80) * 4096 +
                            (b2 - 0x80) * 64 + (b3 - 0x80) in
                  if (0xF0 <=? b0) && (b0 <? 0xF5) && cont b1 && cont b2 &&
                     cont b3 && (0x10000 <=? c4) && (c4 <? 0x110000)
                  then push c4 (decode r3)
                  else Raise UnicodeDecodeError
              | [] => Raise UnicodeDecodeError
              end
          | [] => Raise UnicodeDecodeError
          end
      | [] => Raise UnicodeDecodeError
      end
  end.

End Utf8.

(** What the package takes from outside the repository and this
    development does not spell out: Unicode tables, the ISO date parser,
    the bcrypt primitive and the key files. *)
Module Platform.
Import Py.

Record platform := mkPlatform {
  (** [\d] in a [str] pattern of [re]: the code points of category Nd. *)
  re_digit : N -> bool;
  (** [str.upper]. *)
  str_upper : str -> str;
  (** [date.fromisoformat]; raises ValueError on a string it rejects. *)
  date_fromisoformat : str -> outcome Calendar.date;
  (** bcrypt's own base64 of a 16-byte salt (22 characters). *)
  bcrypt_b64 : N -> Utf8.bytes;
  (** The bcrypt computation proper, once [hashpw] has split its salt
      argument: password, version, cost and the text after the cost.
      Returns the formatted hash, or raises ValueError (as bcrypt 5 does
      for a password of more than 72 bytes, which earlier versions cut
      to 72 bytes instead). *)
  bcrypt_crypt : Utf8.bytes -> Utf8.bytes -> Utf8.bytes -> Utf8.bytes ->
                 outcome Utf8.bytes;
  (** keys/jwt_private_key.pem and keys/jwt_public_key.pem, each named
      by the key pair it belongs to. *)
  private_key_file : N;
  public_key_file : N;
  (** [int(s)] for a [str]: the number it writes, [None] for the text
      [int] refuses with ValueError. *)
  int_of_str : str -> option Z
}.

End Platform.

(** The [bcrypt] package: [gensalt], [hashpw], [checkpw]. *)
Module Bcrypt.
Import Py Runtime Platform.
Local Open Scope py_scope.

(** [bs.split(sep)] for a one-byte separator. *)
Fixpoint split (sep : N) (bs : Utf8.bytes) : list Utf8.bytes :=
  match bs with
  | [] => [[]]
  | b :: rest =>
      if N.eqb b sep then [] :: split sep rest
      else match split sep rest with
           | cur :: more => (b :: cur) :: more
           | [] => [[b]]
           end
  end.

Definition nonempty (bs : Utf8.bytes) : bool :=
  match bs with [] => false | _ => true end.

Section WithPlatform.
Variable P : platform.

(** [hashpw(password, salt)]: the salt argument (a salt from [gensalt]
    or a whole stored hash) must consist of three non-empty fields
    separated by '$'; anything else is ValueError("Invalid salt"). *)
Definition raw_parts (salt : Utf8.bytes) : list Utf8.bytes :=
  filter nonempty (split 36 salt).

Definition hashpw (password salt : Utf8.bytes) : outcome Utf8.bytes :=
  match raw_parts salt with
  | [version; cost; remainder] =>
      bcrypt_crypt P password version cost remainder
  | _ => Raise (ValueError (py "Invalid salt"))
  end.

(** [checkpw(password, hashed_password)]: hash again with the stored
    hash as salt and compare. *)
Definition checkpw (password hashed_password : Utf8.bytes) : outcome bool :=
  match hashpw password hashed_password with
  | Ret h => Ret (str_eqb h hashed_password)
  | Raise e => Raise e
  end.

(** [gensalt(rounds)] with the default prefix [2b]. *)
Definition gensalt (rounds : Z) : M Utf8.bytes :=
  if (rounds <? 4) || (31 <? rounds) then
    raise (ValueError (py "Invalid rounds"))
  else
    r <- urandom16 ;;
    ret (py "$2b$" ++
         [Z.to_N (48 + rounds / 10); Z.to_N (48 + rounds mod 10)] ++
         py "$" ++ bcrypt_b64 P r).

End WithPlatform.
End Bcrypt.

(** [jose.jwt]: [encode] and [decode], with signatures kept symbolic. *)
Module Jose.
Import Py Runtime.
Local Open Scope py_scope.

Definition is_time_claim (k : string) : bool :=
  String.eqb k "exp" || String.eqb k "iat" || String.eqb k "nbf".

(** [jwt.encode] turns [datetime] values of the time claims into whole
    seconds before signing. *)
Definition numeric_date (kv : string * value) : string * value :=
  match kv with
  | (k, VTime t) => if is_time_claim k then (k, VInt (Calendar.timegm t))
                    else (k, VTime t)
  | _ => kv
  end.

Definition encode (claims : dict) (key : N) (algorithm : str) : value :=
  VJws algorithm (List.map numeric_date claims) key.

(** A claim as it stands in the payload segment of a token (readable
    without any key). *)
Definition claim (token : value) (k : string) : option value :=
  match token with
  | VJws _ claims _ => get claims k
  | _ => None
  end.

(** [int(x)] for the value of a claim: the integer, or which exception
    [int] raises. *)
Inductive int_outcome : Type :=
| IntOk (z : Z)
| IntValueError
| IntTypeError.

(** [isinstance(x, str)]; a token is a string too. *)
Definition is_text (v : value) : bool :=
  match v with
  | VStr _ | VJws _ _ _ => true
  | _ => false
  end.

Section Decoding.
(** [int] on text, see [Platform.int_of_str]. *)
Variable int_of_text : str -> option Z.

(** A payload is a JSON object, so a claim is null, a boolean, a number,
    text or an object; the other constructors get what [int] does with
    the Python object they stand for. A compact token always contains
    dots and is never the text of a number. *)
Definition int_of (v : value) : int_outcome :=
  match v with
  | VInt z => IntOk z
  | VBool b => IntOk (if b then 1 else 0)
  | VStr s => match int_of_text s with
              | Some z => IntOk z
              | None => IntValueError
              end
  | VUuid n => IntOk (Z.of_N n)
  | VJws _ _ _ => IntValueError
  | VNone | VTime _ | VDict _ => IntTypeError
  end.

(** The validators catch ValueError only, and turn it into a
    JWTClaimsError (a JWTError); the TypeError of [int(None)] or of
    [int] on an object is not caught. *)
Definition validate_iat (claims : dict) : M unit :=
  match get claims "iat" with
  | None => ret tt
  | Some v =>
      match int_of v with
      | IntOk _ => ret tt
      | IntValueError => raise JWTError
      | IntTypeError => raise TypeError
      end
  end.

Definition validate_nbf (claims : dict) : M unit :=
  match get claims "nbf" with
  | None => ret tt
  | Some v =>
      match int_of v with
      | IntOk nbf =>
          now <- datetime_now ;;
          if Calendar.timegm now <? nbf then raise JWTError else ret tt
      | IntValueError => raise JWTError
      | IntTypeError => raise TypeError
      end
  end.

Definition validate_exp (claims : dict) : M unit :=
  match get claims "exp" with
  | None => ret tt
  | Some v =>
      match int_of v with
      | IntOk exp =>
          now <- datetime_now ;;
          if exp <? Calendar.timegm now then raise JWTError else ret tt
      | IntValueError => raise JWTError
      | IntTypeError => raise TypeError
      end
  end.

(** No audience is passed to [jwt.decode], so a token that has an [aud]
    claim is refused: whatever the claim holds, the audience [None] is
    not in it. *)
Definition validate_aud (claims : dict) : M unit :=
  match get claims "aud" with
  | None => ret tt
  | Some _ => raise JWTError
  end.

Definition validate_sub (claims : dict) : M unit :=
  match get claims "sub" with
  | None => ret tt
  | Some v => if is_text v then ret tt else raise JWTError
  end.

Definition validate_jti (claims : dict) : M unit :=
  match get claims "jti" with
  | None => ret tt
  | Some v => if is_text v then ret tt else raise JWTError
  end.

(** No access token is passed to compare an [at_hash] claim with. *)
Definition validate_at_hash (claims : dict) : M unit :=
  match get claims "at_hash" with
  | None => ret tt
  | Some _ => raise JWTError
  end.

(** [_validate_claims] with the default options; no issuer is passed, so
    [iss] is not looked at. *)
Definition validate_claims (claims : dict) : M unit :=
  validate_iat claims ;;;
  validate_nbf claims ;;;
  validate_exp claims ;;;
  validate_aud claims ;;;
  validate_sub claims ;;;
  validate_jti claims ;;;
  validate_at_hash claims.

(** [jwt.decode(token, key, algorithms)]. The text of the token is first
    encoded as UTF-8, outside every handler, so text that does not
    encode raises UnicodeEncodeError; an argument that is not text has
    no [rsplit] and raises AttributeError. Text that is not the output
    of [encode] carries no valid signature: JWSError, passed on as
    JWTError. For a signed token the header algorithm must be named and
    allowed and the key must verify the signature (JWTError otherwise);
    then the claims are validated. *)
Definition decode (token : value) (key : N) (algorithms : list str)
  : M dict :=
  match token with
  | VStr s =>
      match Utf8.encode s with
      | Raise e => raise e
      | Ret _ => raise JWTError
      end
  | VJws alg claims signer =>
      if negb (truthy (VStr alg)) then raise JWTError
      else if negb (str_in alg algorithms) then raise JWTError
      else if negb (N.eqb signer key) then raise JWTError
      else validate_claims claims ;;; ret claims
  | _ => raise AttributeError
  end.

End Decoding.

End Jose.

(* ===================================================================== *)
(** ** fittrack/security/authentication.py *)
(* ===================================================================== *)

Module Authentication.
Import Py Schema Runtime Platform.
Local Open Scope py_scope.

Definition BCRYPT_ROUNDS : Z := 12.
Definition JWT_ALGORITHM : str := py "RS256".
Definition ACCESS_TOKEN_EXPIRE_MINUTES : Z := 30.
Definition REFRESH_TOKEN_EXPIRE_DAYS : Z := 7.

(** [re.search(r"[...]", s)] for a one-character class: some code point
    of [s] is in the class. *)
Definition re_search (class : N -> bool) (s : str) : bool := existsb class s.

Definition upper_class (c : N) : bool := N.leb 65 c && N.leb c 90.
Definition lower_class (c : N) : bool := N.leb 97 c && N.leb c 122.

(** The character class of the last pattern: the punctuation below and
    the double quote (code point 34), which the pattern writes escaped. *)
Definition special_chars : str := py "!@#$%^&*(),.?" ++ [34%N] ++ py ":{}|<>".
Definition special_class (c : N) : bool := existsb (N.eqb c) special_chars.

Definition invalid (message : string) : dict :=
  [("valid"%string, VBool false); ("message"%string, VStr (py message))].

Section WithPlatform.
Variable P : platform.

Definition _PRIVATE_KEY : N := private_key_file P.
Definition _PUBLIC_KEY : N := public_key_file P.

(** [str(user_id)] for the argument of the token constructors. *)
Definition str_of_ident (i : ident) : str :=
  match i with
  | IdStr s => s
  | IdUuid n => Uuid.to_str n
  end.

Definition hash_password (password : str) : M str :=
  password_bytes <- lift (Utf8.encode password) ;;
  salt <- Bcrypt.gensalt P BCRYPT_ROUNDS ;;
  hashed <- lift (Bcrypt.hashpw P password_bytes salt) ;;
  lift (Utf8.decode hashed).

Definition verify_password (plain_password hashed_password : str)
  : outcome bool :=
  match Utf8.encode plain_password with
  | Raise e => Raise e
  | Ret password_bytes =>
      match Utf8.encode hashed_password with
      | Raise e => Raise e
      | Ret hashed_bytes => Bcrypt.checkpw P password_bytes hashed_bytes
      end
  end.

Definition validate_password_strength (password : str) : dict :=
  if len password <? 12 then
    invalid "Password must be at least 12 characters long"
  else if negb (re_search upper_class password) then
    invalid "Password must contain at least one uppercase letter"
  else if negb (re_search lower_class password) then
    invalid "Password must contain at least one lowercase letter"
  else if negb (re_search (re_digit P) password) then
    invalid "Password must contain at least one digit"
  else if negb (re_search special_class password) then
    invalid "Password must contain at least one special character"
  else
    [("valid"%string, VBool true);
     ("message"%string, VStr (py "Password is strong"))].

Definition create_access_token (user_id : ident) (email role : str)
    (expires_delta : option Z) : M value :=
  let expires_delta :=
    match expires_delta with
    | None => Calendar.timedelta 0 ACCESS_TOKEN_EXPIRE_MINUTES
    | Some d => d
    end in
  now <- datetime_now ;;
  expire <- lift (Calendar.datetime_add now expires_delta) ;;
  let payload : dict :=
    [("sub"%string, VStr (str_of_ident user_id));
     ("email"%string, VStr email);
     ("role"%string, VStr role);
     ("exp"%string, VTime expire);
     ("iat"%string, VTime now)] in
  ret (Jose.encode payload _PRIVATE_KEY JWT_ALGORITHM).

Definition create_refresh_token (user_id : ident) : M value :=
  let expires_delta := Calendar.timedelta REFRESH_TOKEN_EXPIRE_DAYS 0 in
  now <- datetime_now ;;
  expire <- lift (Calendar.datetime_add now expires_delta) ;;
  let payload : dict :=
    [("sub"%string, VStr (str_of_ident user_id));
     ("type"%string, VStr (py "refresh"));
     ("exp"%string, VTime expire);
     ("iat"%string, VTime now)] in
  ret (Jose.encode payload _PRIVATE_KEY JWT_ALGORITHM).

(** [decode_token]: [None] for every JWTError; any other exception of
    [jwt.decode] passes through. *)
Definition decode_token (token : value) : M (option dict) :=
  except_JWTError
    (payload <- Jose.decode (int_of_str P) token _PUBLIC_KEY
                  [JWT_ALGORITHM] ;;
     ret (Some payload))
    (ret None).

End WithPlatform.
End Authentication.

(* ===================================================================== *)
(** ** fittrack/security/authorization.py *)
(* ===================================================================== *)

Module Authorization.
Import Py Schema Runtime Platform.
Local Open Scope py_scope.

Definition HTTP_401_UNAUTHORIZED : Z := 401.
Definition HTTP_403_FORBIDDEN : Z := 403.

Definition www_authenticate : dict :=
  [("WWW-Authenticate"%string, VStr (py "Bearer"))].

(** The filter [User.user_id == v]: the key column holds text, so a
    key kept as a UUID object is compared through its text. *)
Definition user_id_is (v : value) (u : User) : bool :=
  match v with
  | VStr s => str_eqb (Authentication.str_of_ident (user_id u)) s
  | _ => false
  end.

Section WithPlatform.
Variable P : platform.

(** [get_current_user(credentials, db)]; [token] is
    [credentials.credentials]. *)
Definition get_current_user (token : value) : M User :=
  payload <- Authentication.decode_token P token ;;
  match payload with
  | None =>
      raise (HTTPError (HTTPException HTTP_401_UNAUTHORIZED
                          (py "Invalid or expired credentials")
                          www_authenticate))
  | Some payload =>
      let user_id := match get payload "sub" with
                     | Some v => v
                     | None => VNone
                     end in
      if negb (truthy user_id) then
        raise (HTTPError (HTTPException HTTP_401_UNAUTHORIZED
                            (py "Invalid token payload") www_authenticate))
      else
        user <- query_first (user_id_is user_id) ;;
        match user with
        | None =>
            raise (HTTPError (HTTPException HTTP_401_UNAUTHORIZED
                                (py "User not found") www_authenticate))
        | Some (_, user) =>
            if negb (str_eqb (status user) (py "active")) then
              raise (HTTPError (HTTPException HTTP_403_FORBIDDEN
                                  (py "Account is " ++ status user ++
                                   py ". Please contact support.")
                                  []))
            else ret user
        end
  end.

End WithPlatform.

(** [require_role] takes the allowed roles and returns [role_checker];
    this is [role_checker] applied to the user that [get_current_user]
    resolved. *)
Definition require_role (allowed_roles : list str) (current_user : User)
  : outcome User :=
  if negb (str_in (role current_user) allowed_roles) then
    Raise (HTTPError (HTTPException HTTP_403_FORBIDDEN
                        (py "Insufficient permissions. Required role: " ++
                         join (py ", ") allowed_roles)
                        []))
  else Ret current_user.




End Authorization.

(* ===================================================================== *)
(** ** fittrack/services/auth_service.py *)
(* ===================================================================== *)

Module AuthSvc.
Import Py Schema Runtime Platform.
Local Open Scope py_scope.

Definition INELIGIBLE_STATES : list str := [py "NY"; py "FL"; py "RI"].
Definition MINIMUM_AGE : Z := 18.

Definition failure (message : str) : dict :=
  [("success"%string, VBool false); ("message"%string, VStr message)].

(** [AuthService._calculate_age]. *)
Definition age_on (today birth_date : Calendar.date) : Z :=
  let age := Calendar.year today - Calendar.year birth_date in
  if Calendar.pair_ltb (Calendar.month today, Calendar.day today)
                       (Calendar.month birth_date, Calendar.day birth_date)
  then age - 1 else age.

Definition _calculate_age (birth_date : Calendar.date) : M Z :=
  today <- date_today ;;
  ret (age_on today birth_date).

(** [uuid4() if isinstance(user.user_id, str) else user.user_id]. *)
Definition token_subject (user : User) : M ident :=
  match user_id user with
  | IdStr _ => n <- Uuid.uuid4 ;; ret (IdUuid n)
  | IdUuid n => ret (IdUuid n)
  end.

Section WithPlatform.
Variable P : platform.

Definition register_user (email password date_of_birth
                          state_of_residence : str) : M dict :=
  existing_user <- query_first (fun u => str_eqb (Schema.email u) email) ;;
  match existing_user with
  | Some _ => ret (failure (py "Email address already exists"))
  | None =>
      let password_validation :=
        Authentication.validate_password_strength P password in
      valid <- lift (item password_validation "valid") ;;
      if negb (truthy valid) then
        message <- lift (item password_validation "message") ;;
        ret [("success"%string, VBool false); ("message"%string, message)]
      else
        dob <- lift (date_fromisoformat P date_of_birth) ;;
        age <- _calculate_age dob ;;
        if age <? MINIMUM_AGE then
          ret (failure (py "You must be at least " ++ str_of_int MINIMUM_AGE
                        ++ py " years old to register"))
        else if str_in (str_upper P state_of_residence) INELIGIBLE_STATES
        then
          ret (failure (py "Registration is not available in " ++
                        state_of_residence ++ py " at this time"))
        else
          new_id <- Uuid.uuid4 ;;
          hashed <- Authentication.hash_password P password ;;
          let user := mkUser (IdStr (Uuid.to_str new_id)) email hashed
                             false None (py "pending") (py "user")
                             None 0 None in
          session_add user ;;;
          ret [("success"%string, VBool true);
               ("message"%string,
                VStr (py "User registered successfully. Please verify your email."));
               ("user_id"%string, ident_value (user_id user));
               ("email"%string, VStr (Schema.email user))]
  end.

Definition login (email password : str) : M dict :=
  found <- query_first (fun u => str_eqb (Schema.email u) email) ;;
  match found with
  | None => ret (failure (py "Invalid email or password"))
  | Some (row, user) =>
      ok <- lift (Authentication.verify_password P password
                    (password_hash user)) ;;
      if negb ok then
        ret (failure (py "Invalid email or password"))
      else if negb (email_verified user) then
        ret (failure (py "Please verify your email address before logging in"))
      else if str_eqb (status user) (py "suspended") then
        ret (failure
               (py "Your account has been suspended. Please contact support."))
      else if str_eqb (status user) (py "banned") then
        ret (failure (py "Your account has been banned."))
      else if negb (str_eqb (status user) (py "active")) then
        ret (failure
               (py "Your account is not active. Please verify your email."))
      else
        now <- datetime_now ;;
        let user := set_last_login_at user now in
        session_store row user ;;;
        access_subject <- token_subject user ;;
        access_token <- Authentication.create_access_token P access_subject
                          (Schema.email user) (role user) None ;;
        refresh_subject <- token_subject user ;;
        refresh_token <- Authentication.create_refresh_token P
                           refresh_subject ;;
        ret [("success"%string, VBool true);
             ("message"%string, VStr (py "Login successful"));
             ("access_token"%string, access_token);
             ("refresh_token"%string, refresh_token);
             ("user"%string,
              VDict [("user_id"%string, ident_value (user_id user));
                     ("email"%string, VStr (Schema.email user));
                     ("role"%string, VStr (role user));
                     ("point_balance"%string, VInt (point_balance user))])]
  end.

Definition refresh_access_token (refresh_token : value) : M dict :=
  payload <- Authentication.decode_token P refresh_token ;;
  match payload with
  | None => ret (failure (py "Invalid or expired refresh token"))
  | Some payload =>
      let user_id := match get payload "sub" with
                     | Some v => v
                     | None => VNone
                     end in
      if negb (truthy user_id) then
        ret (failure (py "Invalid token payload"))
      else
        found <- query_first (Authorization.user_id_is user_id) ;;
        match found with
        | None => ret (failure (py "User not found"))
        | Some (_, user) =>
            if negb (str_eqb (status user) (py "active")) then
              ret (failure (py "User account is not active"))
            else
              subject <- token_subject user ;;
              new_access_token <-
                Authentication.create_access_token P subject
                  (Schema.email user) (role user) None ;;
              ret [("success"%string, VBool true);
                   ("message"%string, VStr (py "Access token refreshed"));
                   ("access_token"%string, new_access_token)]
        end
  end.

End WithPlatform.
End AuthSvc.

(* ===================================================================== *)
(** ** Named parts of the service functions *)
(* ===================================================================== *)

(** Pieces of the functions above, given names so that lemmas can speak
    about them. *)
Module Parts.
Import Py Schema Runtime Platform Authentication AuthSvc.
Local Open Scope py_scope.

(** The result of [login] for an unknown email and for a wrong
    password. *)
Definition invalid_credentials : dict :=
  failure (py "Invalid email or password").

(** The message of the age check, with [MINIMUM_AGE] filled in. *)
Definition age_message : str :=
  py "You must be at least 18 years old to register".

(** The message of the state check. *)
Definition state_message (state_of_residence : str) : str :=
  py "Registration is not available in " ++ state_of_residence ++
  py " at this time".

(** The part of [register_user] after the four checks. *)
Definition create_account (P : platform) (email password : str) : M dict :=
  new_id <- Uuid.uuid4 ;;
  hashed <- hash_password P password ;;
  let user := mkUser (IdStr (Uuid.to_str new_id)) email hashed
                     false None (py "pending") (py "user") None 0 None in
  session_add user ;;;
  ret [("success"%string, VBool true);
       ("message"%string,
        VStr (py "User registered successfully. Please verify your email."));
       ("user_id"%string, ident_value (user_id user));
       ("email"%string, VStr (Schema.email user))].

(** The part of [login] after the status checks: the session row [row]
    holds [user]. *)
Definition issue_tokens (P : platform) (row : nat) (user : User) : M dict :=
  now <- datetime_now ;;
  let user := set_last_login_at user now in
  session_store row user ;;;
  access_subject <- token_subject user ;;
  access_token <- create_access_token P access_subject
                    (Schema.email user) (role user) None ;;
  refresh_subject <- token_subject user ;;
  refresh_token <- create_refresh_token P refresh_subject ;;
  ret [("success"%string, VBool true);
       ("message"%string, VStr (py "Login successful"));
       ("access_token"%string, access_token);
       ("refresh_token"%string, refresh_token);
       ("user"%string,
        VDict [("user_id"%string, ident_value (user_id user));
               ("email"%string, VStr (Schema.email user));
               ("role"%string, VStr (role user));
               ("point_balance"%string, VInt (point_balance user))])].

End Parts.

(* ===================================================================== *)
(** ** The specification's wording of some operations *)
(* ===================================================================== *)

(** Definitions written from the words of the specification, to be
    compared with the functions above. *)
Module Wording.
Import Py Schema Platform Authentication.
Local Open Scope Z_scope.

(** The policy as the specification words it: five rules in a fixed
    order, each with the message of its failure. *)
Definition policy_rules (P : platform) : list ((str -> bool) * string) :=
  [ (fun p => 12 <=? len p,
     "Password must be at least 12 characters long"%string);
    (re_search upper_class,
     "Password must contain at least one uppercase letter"%string);
    (re_search lower_class,
     "Password must contain at least one lowercase letter"%string);
    (re_search (re_digit P),
     "Password must contain at least one digit"%string);
    (re_search special_class,
     "Password must contain at least one special character"%string) ].

(** The first rule, in order, that the password violates. *)
Fixpoint first_violation (rules : list ((str -> bool) * string))
    (p : str) : option string :=
  match rules with
  | [] => None
  | (holds, message) :: rest =>
      if holds p then first_violation rest p else Some message
  end.

Definition validate_by_rules (P : platform) (p : str) : dict :=
  match first_violation (policy_rules P) p with
  | Some message => invalid message
  | None => [("valid"%string, VBool true);
             ("message"%string, VStr (py "Password is strong"))]
  end.

(** The inputs registration turns down: the checks run in the order
    email, password, age, state, and the last two need the date of birth
    to have parsed. *)
Definition rejected (P : platform) (w : Runtime.world)
    (email password date_of_birth state_of_residence : str) : bool :=
  match Runtime.first_from (fun u => str_eqb (Schema.email u) email) 0
          (Runtime.session w) with
  | Some _ => true
  | None =>
      match first_violation (policy_rules P) password with
      | Some _ => true
      | None =>
          match date_fromisoformat P date_of_birth with
          | Ret dob =>
              (AuthSvc.age_on (Runtime.today w) dob <? AuthSvc.MINIMUM_AGE)
              || str_in (str_upper P state_of_residence)
                        AuthSvc.INELIGIBLE_STATES
          | Raise _ => false
          end
      end
  end.

(** The three messages of the status gate. *)
Definition banned_message : str := py "Your account has been banned.".
Definition suspended_message : str :=
  py "Your account has been suspended. Please contact support.".
Definition not_active_message : str :=
  py "Your account is not active. Please verify your email.".


(** The date eighteen years before [today], field by field. *)
Definition eighteen_years_before (today : Calendar.date) : Calendar.date :=
  Calendar.mkDate (Calendar.year today - 18) (Calendar.month today)
                  (Calendar.day today).

End Wording.

(* ===================================================================== *)
(** ** A concrete platform and sample data, for running the model *)
(* ===================================================================== *)

Module Sample.
Import Py Schema Runtime Platform.

Definition ascii_digit (c : N) : bool := N.leb 48 c && N.leb c 57.

Definition ascii_upper (s : str) : str :=
  List.map (fun c => if N.leb 97 c && N.leb c 122 then N.sub c 32 else c) s.

Definition digit_val (c : N) : option Z :=
  if ascii_digit c then Some (Z.of_N c - 48) else None.

Fixpoint number (ds : str) (acc : Z) : option Z :=
  match ds with
  | [] => Some acc
  | c :: rest =>
      match digit_val c with
      | Some v => number rest (10 * acc + v)
      | None => None
      end
  end.

(** The [YYYY-MM-DD] form of [date.fromisoformat]. *)
Definition iso_date (s : str) : outcome Calendar.date :=
  let bad := Raise (ValueError (py "Invalid isoformat string")) in
  if negb (Nat.eqb (List.length s) 10
           && str_eqb (firstn 1 (skipn 4 s)) (py "-")
           && str_eqb (firstn 1 (skipn 7 s)) (py "-")) then bad
  else
    match number (firstn 4 s) 0, number (firstn 2 (skipn 5 s)) 0,
          number (skipn 8 s) 0 with
    | Some y, Some m, Some d =>
        let r := Calendar.mkDate y m d in
        if Calendar.valid_date r then Ret r else bad
    | _, _, _ => bad
    end.

(** A stand-in for the bcrypt computation: the digest is the password
    itself, appended to the 22 characters of salt. *)
Definition toy_crypt (password version cost remainder : Utf8.bytes)
  : outcome Utf8.bytes :=
  Ret (py "$" ++ version ++ py "$" ++ cost ++ py "$" ++
       firstn 22 remainder ++ password).

Definition toy_b64 (r : N) : Utf8.bytes := Uuid.hex_digits 22 r [].

(** [int] on an optional sign followed by ASCII digits. *)
Definition ascii_int (s : str) : option Z :=
  match s with
  | [] => None
  | c :: rest =>
      if N.eqb c 45 then
        match rest with
        | [] => None
        | _ => option_map Z.opp (number rest 0)
        end
      else if N.eqb c 43 then
        match rest with
        | [] => None
        | _ => number rest 0
        end
      else number s 0
  end.

Definition platform0 : platform :=
  mkPlatform ascii_digit ascii_upper iso_date toy_b64 toy_crypt 1%N 1%N
             ascii_int.

Definition strong_password : str := py "SecureP@ssw0rd123!".

Definition stored_hash : str :=
  py "$2b$12$0000000000000000000000SecureP@ssw0rd123!".

Definition alice_id : str := py "3f2b8c1e-5d4a-4c6b-9e7f-0a1b2c3d4e5f".

Definition alice (st : str) (verified : bool) : User :=
  mkUser (IdStr alice_id) (py "alice@example.com") stored_hash
         verified None st (py "user") None 0 None.

(** The value a run returned, or [d] when it raised. *)
Definition returned {A} (d : A) (r : outcome A * world) : A :=
  match fst r with
  | Ret a => a
  | Raise _ => d
  end.

Definition world0 (rows : list User) : world :=
  mkWorld rows (fun n => 1700000000000000 + Z.of_nat n)
          0 (Calendar.mkDate 2024 6 15) (fun n => N.of_nat n) 0.

(** Alice, verified and active, is the only row. *)
Definition world1 : world := world0 [alice (py "active") true].

(** Alice logs in with her password. *)
Definition alice_login : outcome dict * world :=
  AuthSvc.login platform0 (py "alice@example.com") strong_password world1.

(** A refresh token whose subject is Alice's stored identifier, and the
    refresh call that presents it. *)
Definition alice_refresh_token : outcome value * world :=
  Authentication.create_refresh_token platform0 (IdStr alice_id) world1.

Definition alice_refresh : outcome dict * world :=
  AuthSvc.refresh_access_token platform0
    (returned VNone alice_refresh_token) (snd alice_refresh_token).

(** The token under key [k] of a result. *)
Definition token_of (r : outcome dict * world) (k : string) : value :=
  match get (returned [] r) k with
  | Some t => t
  | None => VNone
  end.

(** The first two identifiers [uuid4] makes from the entropy of
    [world0]. *)
Definition first_uuid : str := py "00000000-0000-4000-8000-000000000000".
Definition second_uuid : str := py "00000000-0000-4000-8000-000000000001".

End Sample.

(* ===================================================================== *)
(** ** fittrack/models/base.py *)
(* ===================================================================== *)

Module BaseModel.
Import Py Runtime.
Local Open Scope py_scope.

(** The column [SoftDeleteMixin] adds to a model. *)
Record SoftDeleteMixin := mkSoftDelete { deleted_at : option Z }.

(** [SoftDeleteMixin.soft_delete]. *)
Definition soft_delete (self : SoftDeleteMixin) : M SoftDeleteMixin :=
  now <- datetime_now ;;
  ret (mkSoftDelete (Some now)).

(** [SoftDeleteMixin.restore]. *)
Definition restore (self : SoftDeleteMixin) : SoftDeleteMixin :=
  mkSoftDelete None.

(** [SoftDeleteMixin.is_deleted]. *)
Definition is_deleted (self : SoftDeleteMixin) : bool :=
  match deleted_at self with
  | Some _ => true
  | None => false
  end.

End BaseModel.

(* ===================================================================== *)
(** ** fittrack/api/routes/v1/auth.py *)
(* ===================================================================== *)

Module Routes.
Import Py Schema Runtime Platform.

Definition HTTP_400_BAD_REQUEST : Z := 400.
Definition HTTP_401_UNAUTHORIZED : Z := 401.
Definition HTTP_403_FORBIDDEN : Z := 403.
Definition HTTP_409_CONFLICT : Z := 409.
Definition HTTP_422_UNPROCESSABLE_ENTITY : Z := 422.

(** [s.startswith(prefix)]. *)
Fixpoint startswith (prefix s : str) : bool :=
  match prefix, s with
  | [], _ => true
  | _ :: _, [] => false
  | a :: prefix', b :: s' => N.eqb a b && startswith prefix' s'
  end.

(** [needle in hay] for two strings. *)
Fixpoint contains (needle hay : str) : bool :=
  startswith needle hay ||
  match hay with
  | [] => false
  | _ :: rest => contains needle rest
  end.

(** What the routes take from pydantic and the string library: the
    response models, which validate their arguments and may raise
    ValidationError (a ValueError), and [str.lower]. *)
Record web := mkWeb {
  str_lower : str -> str;
  RegisterResponse : dict -> outcome dict;
  UserInfo : dict -> outcome value;
  LoginResponse : value -> value -> value -> outcome dict;
  RefreshResponse : value -> outcome dict
}.

(** [raise HTTPException(status_code, detail, headers)]. *)
Definition http_error (code : Z) (detail : value) (headers : dict)
  : outcome dict :=
  match detail with
  | VStr d => Raise (HTTPError (HTTPException code d headers))
  | _ => Raise (KeyError "detail")
  end.

(** The text under [result["message"]]; the services always put text
    there. *)
Definition message_of (result : dict) : outcome str :=
  match item result "message" with
  | Ret (VStr m) => Ret m
  | Ret _ => Raise (KeyError "message")
  | Raise e => Raise e
  end.

(** The session that [get_db] hands to a request is closed when the
    request ends: what was not committed is dropped, so the table reads
    as it did when the request began. The clock and the entropy that
    were consumed stay consumed. *)
Definition closed_without_commit (before after : world) : world :=
  mkWorld (session before) (clock after) (clock_reads after) (today after)
          (entropy after) (entropy_reads after).

Section WithPlatform.
Variable P : platform.
Variable W : web.

(** [POST /api/v1/auth/register]. The world handed in holds the table
    as the request finds it; the world handed back holds the table as
    the request leaves it (after [db.commit()] or after the session was
    closed without one). *)
Definition register (email password date_of_birth state_of_residence : str)
  : M dict :=
  fun w =>
    match AuthSvc.register_user P email password date_of_birth
            state_of_residence w with
    | (Raise e, w') => (Raise e, closed_without_commit w w')
    | (Ret result, w') =>
        match item result "success" with
        | Raise e => (Raise e, closed_without_commit w w')
        | Ret success =>
            if negb (truthy success) then
              match message_of result with
              | Raise e => (Raise e, closed_without_commit w w')
              | Ret message =>
                  if contains (py "already exists") (str_lower W message)
                  then (http_error HTTP_409_CONFLICT (VStr message) [],
                        closed_without_commit w w')
                  else if contains (py "password") (str_lower W message)
                  then (http_error HTTP_422_UNPROCESSABLE_ENTITY
                          (VStr message) [],
                        closed_without_commit w w')
                  else (http_error HTTP_400_BAD_REQUEST (VStr message) [],
                        closed_without_commit w w')
              end
            else
              (* db.commit() *)
              (RegisterResponse W result, w')
        end
    end.

(** [POST /api/v1/auth/login]. *)
Definition login (email password : str) : M dict :=
  fun w =>
    match AuthSvc.login P email password w with
    | (Raise e, w') => (Raise e, closed_without_commit w w')
    | (Ret result, w') =>
        match item result "success" with
        | Raise e => (Raise e, closed_without_commit w w')
        | Ret success =>
            if negb (truthy success) then
              match message_of result with
              | Raise e => (Raise e, closed_without_commit w w')
              | Ret message =>
                  if contains (py "invalid") (str_lower W message)
                  then (http_error HTTP_401_UNAUTHORIZED (VStr message)
                          Authorization.www_authenticate,
                        closed_without_commit w w')
                  else (http_error HTTP_403_FORBIDDEN (VStr message) [],
                        closed_without_commit w w')
              end
            else
              (* db.commit(), then the response is built. *)
              match item result "user" with
              | Ret (VDict user) =>
                  match UserInfo W user with
                  | Raise e => (Raise e, w')
                  | Ret user_info =>
                      match item result "access_token",
                            item result "refresh_token" with
                      | Ret access_token, Ret refresh_token =>
                          (LoginResponse W access_token refresh_token
                             user_info, w')
                      | Raise e, _ => (Raise e, w')
                      | _, Raise e => (Raise e, w')
                      end
                  end
              | Ret _ => (Raise (KeyError "user"), w')
              | Raise e => (Raise e, w')
              end
        end
    end.

(** [POST /api/v1/auth/refresh]; nothing is committed. *)
Definition refresh_token (refresh_token : value) : M dict :=
  fun w =>
    match AuthSvc.refresh_access_token P refresh_token w with
    | (Raise e, w') => (Raise e, closed_without_commit w w')
    | (Ret result, w') =>
        match item result "success" with
        | Raise e => (Raise e, closed_without_commit w w')
        | Ret success =>
            if negb (truthy success) then
              match message_of result with
              | Raise e => (Raise e, closed_without_commit w w')
              | Ret message =>
                  (http_error HTTP_401_UNAUTHORIZED (VStr message)
                     Authorization.www_authenticate,
                   closed_without_commit w w')
              end
            else
              match item result "access_token" with
              | Ret access_token =>
                  (RefreshResponse W access_token,
                   closed_without_commit w w')
              | Raise e => (Raise e, closed_without_commit w w')
              end
        end
    end.

End WithPlatform.
End Routes.

(* ===================================================================== *)
(** ** More named parts of the service functions *)
(* ===================================================================== *)

Module Parts2.
Import Py Schema Runtime Platform Authentication AuthSvc.
Local Open Scope py_scope.

(** [payload.get("sub")]. *)
Definition subject_of (payload : dict) : value :=
  match get payload "sub" with
  | Some v => v
  | None => VNone
  end.

(** The part of [refresh_access_token] after its checks. *)
Definition reissue (P : platform) (user : User) : M dict :=
  subject <- token_subject user ;;
  new_access_token <- create_access_token P subject
                        (Schema.email user) (role user) None ;;
  ret [("success"%string, VBool true);
       ("message"%string, VStr (py "Access token refreshed"));
       ("access_token"%string, new_access_token)].

(** The world after one read of the clock. *)
Definition tick (w : world) : world :=
  mkWorld (session w) (clock w) (S (clock_reads w)) (today w)
          (entropy w) (entropy_reads w).

(** Nothing but the number of clock reads differs between two worlds. *)
Definition untouched (w w' : world) : Prop :=
  session w' = session w /\ entropy w' = entropy w /\
  entropy_reads w' = entropy_reads w /\ clock w' = clock w /\
  today w' = today w /\ (clock_reads w <= clock_reads w')%nat.

(** The time claim [k] holds a value on which [int] raises TypeError. *)
Definition time_claim_raises (P : platform) (claims : dict) (k : string)
  : Prop :=
  exists v, get claims k = Some v /\
            Jose.int_of (int_of_str P) v = Jose.IntTypeError.

(** The message of [login] for an unverified email. *)
Definition unverified_message : str :=
  py "Please verify your email address before logging in".

(** The detail of the 403 of [get_current_user]. *)
Definition inactive_detail (user : User) : str :=
  py "Account is " ++ status user ++ py ". Please contact support.".

End Parts2.

(* ===================================================================== *)
(** ** More sample data *)
(* ===================================================================== *)

Module Sample2.
Import Py Schema Runtime Platform.

Definition ascii_lower_char (c : N) : N :=
  if N.leb 65 c && N.leb c 90 then N.add c 32 else c.

(** [str.lower] on text that is all ASCII. *)
Definition ascii_lower (s : str) : str := List.map ascii_lower_char s.

Definition is_ascii (s : str) : bool := forallb (fun c => N.ltb c 128) s.

(** Response models that accept every argument and keep it. *)
Definition web0 : Routes.web :=
  Routes.mkWeb ascii_lower
    (fun kw => Ret kw)
    (fun kw => Ret (VDict kw))
    (fun access refresh user =>
       Ret [("access_token"%string, access);
            ("refresh_token"%string, refresh);
            ("token_type"%string, VStr (py "bearer"));
            ("user"%string, user)])
    (fun access =>
       Ret [("access_token"%string, access);
            ("token_type"%string, VStr (py "bearer"))]).

(** Bob registers on an empty table. *)
Definition bob_email : str := py "bob@example.com".

Definition bob_registration : outcome dict * world :=
  AuthSvc.register_user Sample.platform0 bob_email Sample.strong_password
    (py "1990-01-15") (py "TX") (Sample.world0 []).

Definition bob_registration_route : outcome dict * world :=
  Routes.register Sample.platform0 web0 bob_email Sample.strong_password
    (py "1990-01-15") (py "TX") (Sample.world0 []).

Definition alice_email : str := py "alice@example.com".

(** An access token whose subject is Alice's stored identifier. *)
Definition alice_access_token : outcome value * world :=
  Authentication.create_access_token Sample.platform0
    (IdStr Sample.alice_id) alice_email (py "user") None Sample.world1.

(** A token that is expired when issued. *)
Definition stale_token : outcome value * world :=
  Authentication.create_access_token Sample.platform0
    (IdStr Sample.alice_id) alice_email (py "user") (Some (-1000000))
    Sample.world1.

(** Alice mistypes her password. *)
Definition alice_wrong_login : outcome dict * world :=
  AuthSvc.login Sample.platform0 alice_email (py "WrongPassword123!")
    Sample.world1.

(** A refresh with a string that is no token. *)
Definition bad_refresh : outcome dict * world :=
  AuthSvc.refresh_access_token Sample.platform0
    (VStr (py "invalid.token.here")) Sample.world1.






End Sample2.

(** Evaluates the comparisons of two known code points in a goal. *)
Ltac decide_eqbs :=
  repeat match goal with
         | |- context [N.eqb ?a ?b] =>
             tryif is_var b then fail
             else (let v := eval vm_compute in (N.eqb a b) in
                   change (N.eqb a b) with v)
         end.

(** Splits on the comparisons that are left, those with an unknown code
    point. *)
Ltac split_eqbs :=
  repeat match goal with
         | |- context [N.eqb ?a ?b] => destruct (N.eqb a b); cbn [andb orb]
         end.

(* ===================================================================== *)
(** * Properties *)
(* ===================================================================== *)

(** ** Text equality *)

Lemma str_eqb_refl (a : Py.str) : Py.str_eqb a a = true.
Proof.
  induction a as [|x a IH]; simpl; [reflexivity|].
  now rewrite N.eqb_refl, IH.
Qed.

Lemma str_eqb_eq (a b : Py.str) : Py.str_eqb a b = true <-> a = b.
Proof.
  split.
  - revert b; induction a as [|x a IH]; intros [|y b] H; simpl in H;
      try discriminate; [reflexivity|].
    apply andb_true_iff in H as [Hx Hr].
    apply N.eqb_eq in Hx. apply IH in Hr. now subst.
  - intros ->. apply str_eqb_refl.
Qed.

Lemma str_eqb_neq (a b : Py.str) : Py.str_eqb a b = false <-> a <> b.
Proof.
  rewrite <- str_eqb_eq. destruct (Py.str_eqb a b); split; intro H;
    try discriminate; try reflexivity; try congruence.
Qed.

(** ** models/user.py *)

Section UserModelFacts.
Import Py Schema Runtime UserModel.

(** C7. [verify_email] always returns; afterwards the status is [active]
    when it was [pending] and is the status it was in every other case,
    so the status changes if and only if it was [pending]. An [active]
    account stays [active]. *)
Theorem verify_email_status_transition (u : User) (w : world) :
  exists u' w',
    verify_email u w = (Ret u', w') /\
    (status u = py "pending" -> status u' = py "active") /\
    (status u <> py "pending" -> status u' = status u) /\
    (status u' <> status u <-> status u = py "pending") /\
    (status u = py "active" -> status u' <> py "pending").
Proof.
  unfold verify_email, bind, datetime_now, ret.
  eexists; eexists; split; [reflexivity|]. cbn [status].
  assert (Hap : py "active" <> py "pending") by (vm_compute; discriminate).
  destruct (str_eqb (status u) (py "pending")) eqn:E.
  - apply str_eqb_eq in E. rewrite E.
    split; [reflexivity|]. split; [congruence|].
    split; [tauto|]. intros H _. now apply Hap.
  - apply str_eqb_neq in E.
    split; [congruence|]. split; [reflexivity|].
    split; [tauto|]. congruence.
Qed.

End UserModelFacts.

(** ** security/authorization.py *)

Section AuthorizationFacts.
Import Py Schema Authorization.




End AuthorizationFacts.

(** ** security/authentication.py: password policy *)

Section PasswordPolicy.
Import Py Platform Authentication Wording.
Variable P : platform.



Lemma validate_password_strength_by_rules (p : str) :
  validate_password_strength P p = validate_by_rules P p.
Proof.
  unfold validate_password_strength, validate_by_rules, policy_rules.
  cbn [first_violation].
  rewrite (Z.leb_antisym (len p) 12).
  destruct (len p <? 12); cbn [negb]; [reflexivity|].
  destruct (re_search upper_class p); cbn [negb]; [|reflexivity].
  destruct (re_search lower_class p); cbn [negb]; [|reflexivity].
  destruct (re_search (re_digit P) p); cbn [negb]; [|reflexivity].
  destruct (re_search special_class p); reflexivity.
Qed.


End PasswordPolicy.

(** The examples of the specification's policy ordering. *)
Example policy_examples :
  let v := Authentication.validate_password_strength Sample.platform0 in
  v (py "short1") =
    Authentication.invalid "Password must be at least 12 characters long" /\
  v (py "alllowercase123!") =
    Authentication.invalid
      "Password must contain at least one uppercase letter" /\
  v (py "ALLUPPERCASE123!") =
    Authentication.invalid
      "Password must contain at least one lowercase letter" /\
  v (py "NoDigitsHere!!") =
    Authentication.invalid "Password must contain at least one digit" /\
  v (py "NoSpecial1234") =
    Authentication.invalid
      "Password must contain at least one special character" /\
  Py.get (v (py "SecureP@ssw0rd123!")) "valid" = Some (Py.VBool true).
Proof. vm_compute. repeat split. Qed.

(** ** security/authentication.py: token lifetimes *)

Section TokenLifetimes.
Import Py Schema Runtime Platform Authentication.
Variable P : platform.

Lemma access_token_run (uid : ident) (email role : str) (w w' : world)
    (t : value) :
  create_access_token P uid email role None w = (Ret t, w') ->
  Jose.claim t "exp" =
    Some (VInt (Calendar.timegm (clock w (clock_reads w)) + 30 * 60)) /\
  Jose.claim t "sub" = Some (VStr (str_of_ident uid)).
Proof.
  unfold create_access_token, bind, datetime_now, lift, ret,
    Calendar.datetime_add.
  cbn [fst snd].
  destruct (_ && _); [|discriminate].
  intros [= <- <-]. split; [|reflexivity].
  cbn [Jose.claim Jose.encode List.map Jose.numeric_date get].
  cbn [String.eqb Ascii.eqb Bool.eqb Jose.is_time_claim orb].
  do 2 f_equal. unfold Calendar.timegm, Calendar.timedelta,
    ACCESS_TOKEN_EXPIRE_MINUTES.
  change (clock w (clock_reads w) + (0 * 86400 + 30 * 60) * 1000000)
    with (clock w (clock_reads w) + (30 * 60) * 1000000).
  now rewrite Z.div_add by lia.
Qed.

Lemma refresh_token_run (uid : ident) (w w' : world) (t : value) :
  create_refresh_token P uid w = (Ret t, w') ->
  Jose.claim t "exp" =
    Some (VInt (Calendar.timegm (clock w (clock_reads w)) + 7 * 86400)) /\
  Jose.claim t "sub" = Some (VStr (str_of_ident uid)).
Proof.
  unfold create_refresh_token, bind, datetime_now, lift, ret,
    Calendar.datetime_add.
  cbn [fst snd].
  destruct (_ && _); [|discriminate].
  intros [= <- <-]. split; [|reflexivity].
  cbn [Jose.claim Jose.encode List.map Jose.numeric_date get].
  cbn [String.eqb Ascii.eqb Bool.eqb Jose.is_time_claim orb].
  do 2 f_equal. unfold Calendar.timegm, Calendar.timedelta,
    REFRESH_TOKEN_EXPIRE_DAYS.
  change (clock w (clock_reads w) + (7 * 86400 + 0 * 60) * 1000000)
    with (clock w (clock_reads w) + (7 * 86400) * 1000000).
  now rewrite Z.div_add by lia.
Qed.

(** C9. An access token with the default lifetime and a refresh token,
    both created while the clock reads the same instant, carry [exp]
    claims with the refresh token's strictly the later. *)
Theorem refresh_expiry_after_access_expiry
    (uid uid' : ident) (email role : str) (w1 w1' w2 w2' : world)
    (access refresh : value) :
  clock w1 (clock_reads w1) = clock w2 (clock_reads w2) ->
  create_access_token P uid email role None w1 = (Ret access, w1') ->
  create_refresh_token P uid' w2 = (Ret refresh, w2') ->
  exists ea er,
    Jose.claim access "exp" = Some (VInt ea) /\
    Jose.claim refresh "exp" = Some (VInt er) /\
    ea < er.
Proof.
  intros Hnow Ha Hr.
  apply access_token_run in Ha as [Ha _].
  apply refresh_token_run in Hr as [Hr _].
  do 2 eexists. split; [exact Ha|]. split; [exact Hr|].
  rewrite Hnow. lia.
Qed.

End TokenLifetimes.


Lemma refresh_expiry_after_access_expiry_witness :
  let w := Sample.world0 [] in
  let a := Authentication.create_access_token Sample.platform0
             (Schema.IdUuid 7) (py "alice@example.com") (py "user") None w in
  let r := Authentication.create_refresh_token Sample.platform0
             (Schema.IdUuid 7) w in
  exists ea er,
    Jose.claim (Sample.returned Py.VNone a) "exp" = Some (Py.VInt ea) /\
    Jose.claim (Sample.returned Py.VNone r) "exp" = Some (Py.VInt er) /\
    ea < er.
Proof.
  intros w a r.
  apply (refresh_expiry_after_access_expiry Sample.platform0
           (Schema.IdUuid 7) (Schema.IdUuid 7)
           (py "alice@example.com") (py "user") w (snd a) w (snd r));
    reflexivity.
Defined.

(** ** services/auth_service.py: the age rule *)

Section AgeRule.
Import Py Schema Runtime Platform Calendar AuthSvc Wording.

(** Eighteen or older exactly when born on or before the date eighteen
    years back. *)
Lemma adult_iff_born_by_anniversary (t b : date) :
  (age_on t b <? MINIMUM_AGE) =
  negb (date_leb b (eighteen_years_before t)).
Proof.
  unfold age_on, MINIMUM_AGE, date_leb, eighteen_years_before, pair_ltb.
  cbn [year month day fst snd].
  destruct ((month t <? month b) || (month t =? month b) && (day t <? day b));
    cbn [negb].
  - destruct (Z.ltb_spec (year b) (year t - 18)),
             (Z.eqb_spec (year b) (year t - 18)),
             (Z.ltb_spec (year t - year b - 1) 18);
      cbn; try reflexivity; lia.
  - destruct (Z.ltb_spec (year b) (year t - 18)),
             (Z.eqb_spec (year b) (year t - 18)),
             (Z.ltb_spec (year t - year b) 18);
      cbn; try reflexivity; lia.
Qed.

(** The day after a date is not on or before it. *)
Lemma next_day_later (a b : date) :
  next_day a = Some b -> date_leb b a = false.
Proof.
  unfold next_day, date_leb, pair_ltb.
  destruct (Z.ltb_spec (day a) (days_in_month (year a) (month a))).
  { intros [= <-]. cbn [year month day fst snd].
    rewrite Z.ltb_irrefl, Z.eqb_refl, Z.eqb_refl.
    destruct (Z.ltb_spec (day a) (day a + 1)); [|lia].
    now rewrite orb_true_r. }
  destruct (Z.ltb_spec (month a) 12).
  { intros [= <-]. cbn [year month day fst snd].
    rewrite Z.ltb_irrefl, Z.eqb_refl.
    destruct (Z.ltb_spec (month a) (month a + 1)); [|lia]. reflexivity. }
  destruct (Z.ltb_spec (year a) 9999); [|discriminate].
  intros [= <-]. cbn [year month day fst snd].
  destruct (Z.ltb_spec (year a + 1) (year a)); [lia|].
  destruct (Z.eqb_spec (year a + 1) (year a)); [lia|]. reflexivity.
Qed.

End AgeRule.

(** ** services/auth_service.py: registration *)

Section Registration.
Import Py Schema Runtime Platform Calendar Authentication AuthSvc.
Import Wording Parts.
Variable P : platform.

Lemma age_message_eq :
  py "You must be at least " ++ str_of_int MINIMUM_AGE ++
  py " years old to register" = age_message.
Proof. reflexivity. Qed.

(** [register_user], check by check. *)
Lemma register_user_unfold (email password dob_text state : str) (w : world) :
  register_user P email password dob_text state w =
  match first_from (fun u => str_eqb (Schema.email u) email) 0 (session w) with
  | Some _ => (Ret (failure (py "Email address already exists")), w)
  | None =>
      match first_violation (policy_rules P) password with
      | Some message => (Ret (failure (py message)), w)
      | None =>
          match date_fromisoformat P dob_text with
          | Raise e => (Raise e, w)
          | Ret dob =>
              if age_on (today w) dob <? MINIMUM_AGE then
                (Ret (failure age_message), w)
              else if str_in (str_upper P state) INELIGIBLE_STATES then
                (Ret (failure (state_message state)), w)
              else create_account P email password w
          end
      end
  end.
Proof.
  unfold register_user. run_monad.
  destruct (first_from _ 0 (session w)); [reflexivity|].
  rewrite validate_password_strength_by_rules. unfold validate_by_rules.
  destruct (first_violation (policy_rules P) password); [reflexivity|].
  cbn [item get String.eqb Ascii.eqb Bool.eqb truthy negb].
  destruct (date_fromisoformat P dob_text); [|reflexivity].
  unfold _calculate_age. run_monad.
  destruct (age_on (today w) a <? MINIMUM_AGE); [reflexivity|].
  destruct (str_in (str_upper P state) INELIGIBLE_STATES); reflexivity.
Qed.

(** Creating the account either succeeds, or raises with the session as
    it was. *)
Lemma create_account_outcome (email password : str) (w w' : world)
    (o : outcome dict) :
  create_account P email password w = (o, w') ->
  (forall r, o = Ret r -> get r "success" = Some (VBool true)) /\
  (forall e, o = Raise e -> session w' = session w).
Proof.
  unfold create_account, Uuid.uuid4, hash_password, Bcrypt.gensalt,
    urandom16, session_add.
  run_monad. cbn [BCRYPT_ROUNDS Z.ltb Z.compare orb Pos.compare
                  Pos.compare_cont].
  destruct (Utf8.encode password); cbn [session].
  - destruct (Bcrypt.hashpw P _ _).
    + destruct (Utf8.decode _); intros [= <- <-]; split; intros;
        try discriminate; try reflexivity.
      injection H as <-. reflexivity.
    + intros [= <- <-]; split; intros; try discriminate; reflexivity.
  - intros [= <- <-]; split; intros; try discriminate; reflexivity.
Qed.

Lemma state_message_not_age (state : str) :
  failure (state_message state) <> failure age_message.
Proof. unfold failure, state_message. cbn. intros [=]. Qed.

(** C5. With a fresh email, a password the policy accepts and a date of
    birth that parses, [register_user] computes the age as the difference
    of the years, less one exactly when today's (month, day) precedes the
    birth (month, day). A date of birth one day after the date eighteen
    years back is refused with the age message and nothing is stored; a
    date of birth on or before that date gives an age of at least 18 and
    is never refused for age. *)
Theorem register_user_age_is_calendar_correct
    (email password dob_text state : str) (w : world) (dob : date) :
  first_from (fun u => str_eqb (Schema.email u) email) 0 (session w) = None ->
  get (validate_password_strength P password) "valid" = Some (VBool true) ->
  date_fromisoformat P dob_text = Ret dob ->
  _calculate_age dob w = (Ret (age_on (today w) dob), w) /\
  age_on (today w) dob =
    year (today w) - year dob -
    (if pair_ltb (month (today w), day (today w)) (month dob, day dob)
     then 1 else 0) /\
  (next_day (eighteen_years_before (today w)) = Some dob ->
   age_on (today w) dob < 18 /\
   register_user P email password dob_text state w =
     (Ret (failure age_message), w)) /\
  (date_leb dob (eighteen_years_before (today w)) = true ->
   18 <= age_on (today w) dob /\
   fst (register_user P email password dob_text state w) <>
     Ret (failure age_message)).
Proof.
  intros Hfresh Hvalid Hdob.
  assert (Hrules : first_violation (policy_rules P) password = None).
  { rewrite validate_password_strength_by_rules in Hvalid.
    unfold validate_by_rules in Hvalid.
    destruct (first_violation (policy_rules P) password);
      [discriminate | reflexivity]. }
  pose proof (register_user_unfold email password dob_text state w) as Hreg.
  rewrite Hfresh, Hrules, Hdob in Hreg.
  pose proof (adult_iff_born_by_anniversary (today w) dob) as Hage.
  split; [reflexivity|]. split.
  { unfold age_on. destruct (pair_ltb _ _); lia. }
  split.
  - intros Hnext. apply next_day_later in Hnext.
    rewrite Hnext in Hage. cbn [negb] in Hage. rewrite Hage in Hreg.
    split; [|exact Hreg].
    unfold MINIMUM_AGE in Hage. now apply Z.ltb_lt.
  - intros Hleb. rewrite Hleb in Hage. cbn [negb] in Hage.
    rewrite Hage in Hreg. split.
    { unfold MINIMUM_AGE in Hage. now apply Z.ltb_ge. }
    rewrite Hreg.
    destruct (str_in (str_upper P state) INELIGIBLE_STATES).
    + cbn [fst]. intros H. apply (state_message_not_age state).
      congruence.
    + destruct (create_account P email password w) as [o w'] eqn:Hc.
      apply create_account_outcome in Hc as [Hok _]. cbn [fst].
      intros ->. specialize (Hok _ eq_refl). discriminate.
Qed.

(** C10. [register_user] changes nothing when it turns an input down.
    Every input that fails a check (duplicate email, weak password,
    under 18, ineligible state) gets a failure result with the whole
    process state as it was: no identifier or salt was drawn, no [User]
    was built or added. Conversely every result that is not a success
    leaves the state as it was, and if the call raises, the session is
    as it was. *)
Theorem register_user_failure_leaves_state
    (email password dob_text state : str) (w : world) :
  (rejected P w email password dob_text state = true ->
   exists message,
     register_user P email password dob_text state w =
       (Ret (failure message), w)) /\
  (forall r w',
     register_user P email password dob_text state w = (Ret r, w') ->
     get r "success" <> Some (VBool true) -> w' = w) /\
  (forall e w',
     register_user P email password dob_text state w = (Raise e, w') ->
     session w' = session w).
Proof.
  rewrite register_user_unfold. unfold rejected.
  destruct (first_from _ 0 (session w)).
  { split; [eauto|]. split; intros; congruence. }
  destruct (first_violation (policy_rules P) password).
  { split; [eauto|]. split; intros; congruence. }
  destruct (date_fromisoformat P dob_text) as [dob|e0].
  2:{ split; [discriminate|]. split; intros; congruence. }
  destruct (age_on (today w) dob <? MINIMUM_AGE).
  { split; [eauto|]. split; intros; congruence. }
  destruct (str_in (str_upper P state) INELIGIBLE_STATES).
  { split; [eauto|]. split; intros; congruence. }
  split; [discriminate|]. split.
  - intros r w' Hc Hr. apply create_account_outcome in Hc as [Hok _].
    now rewrite (Hok r eq_refl) in Hr.
  - intros e w' Hc. apply create_account_outcome in Hc as [_ Hraise].
    exact (Hraise e eq_refl).
Qed.

End Registration.

Lemma register_user_age_is_calendar_correct_witness :
  let P := Sample.platform0 in
  let w := Sample.world0 [] in
  let email := py "bob@example.com" in
  let dob_text := py "2006-06-16" in
  let dob := Calendar.mkDate 2006 6 16 in
  Runtime.first_from (fun u => Py.str_eqb (Schema.email u) email) 0
    (Runtime.session w) = None /\
  Py.get (Authentication.validate_password_strength P Sample.strong_password)
    "valid" = Some (Py.VBool true) /\
  Platform.date_fromisoformat P dob_text = Py.Ret dob /\
  Calendar.next_day (Wording.eighteen_years_before (Runtime.today w)) =
    Some dob /\
  AuthSvc.register_user P email Sample.strong_password dob_text (py "TX") w =
    (Py.Ret (AuthSvc.failure Parts.age_message), w).
Proof.
  intros P w email dob_text dob.
  assert (H1 : Runtime.first_from
                 (fun u => Py.str_eqb (Schema.email u) email) 0
                 (Runtime.session w) = None) by reflexivity.
  assert (H2 : Py.get (Authentication.validate_password_strength P
                         Sample.strong_password) "valid" =
               Some (Py.VBool true)) by (vm_compute; reflexivity).
  assert (H3 : Platform.date_fromisoformat P dob_text = Py.Ret dob)
    by (vm_compute; reflexivity).
  assert (H4 : Calendar.next_day
                 (Wording.eighteen_years_before (Runtime.today w)) =
               Some dob) by (vm_compute; reflexivity).
  split; [exact H1|]. split; [exact H2|]. split; [exact H3|].
  split; [exact H4|].
  exact (proj2 (proj1 (proj2 (proj2
    (register_user_age_is_calendar_correct P email Sample.strong_password
       dob_text (py "TX") w dob H1 H2 H3))) H4)).
Defined.

(** ** services/auth_service.py: login *)

Section Login.
Import Py Schema Runtime Platform Authentication AuthSvc.
Import Wording Parts.
Variable P : platform.

(** [login], check by check. *)
Lemma login_unfold (email password : str) (w : world) :
  login P email password w =
  match first_from (fun u => str_eqb (Schema.email u) email) 0 (session w) with
  | None => (Ret invalid_credentials, w)
  | Some (row, user) =>
      match verify_password P password (password_hash user) with
      | Raise e => (Raise e, w)
      | Ret false => (Ret invalid_credentials, w)
      | Ret true =>
          if negb (email_verified user) then
            (Ret (failure
                    (py "Please verify your email address before logging in")),
             w)
          else if str_eqb (status user) (py "suspended") then
            (Ret (failure suspended_message), w)
          else if str_eqb (status user) (py "banned") then
            (Ret (failure banned_message), w)
          else if negb (str_eqb (status user) (py "active")) then
            (Ret (failure not_active_message), w)
          else issue_tokens P row user w
      end
  end.
Proof.
  unfold login. run_monad.
  destruct (first_from _ 0 (session w)) as [[row user]|]; [|reflexivity].
  destruct (verify_password P password (password_hash user)) as [[|]|e];
    try reflexivity.
  cbn [negb].
  destruct (email_verified user); cbn [negb]; [|reflexivity].
  destruct (str_eqb (status user) (py "suspended")); [reflexivity|].
  destruct (str_eqb (status user) (py "banned")); [reflexivity|].
  destruct (str_eqb (status user) (py "active")); reflexivity.
Qed.




End Login.




(** ** security/authentication.py: password verification *)

Section PasswordVerification.
Import Py Schema Runtime Platform Authentication.
Variable P : platform.

(** A stored hash that does not split into three fields makes
    [verify_password] raise, whatever the bcrypt computation is. *)
Lemma verify_password_invalid_salt (password hashed : str)
    (pb hb : Utf8.bytes) :
  Utf8.encode password = Ret pb ->
  Utf8.encode hashed = Ret hb ->
  List.length (Bcrypt.raw_parts hb) <> 3%nat ->
  verify_password P password hashed = Raise (ValueError (py "Invalid salt")).
Proof.
  intros Hp Hh Hn. unfold verify_password, Bcrypt.checkpw, Bcrypt.hashpw.
  rewrite Hp, Hh.
  destruct (Bcrypt.raw_parts hb) as [|v [|c [|r [|x rest]]]];
    try reflexivity.
  now contradiction Hn.
Qed.

(** C2, as the code has it. For a password and a stored hash that encode
    as UTF-8: when the hash has the three fields of a bcrypt hash,
    [verify_password] gives what the bcrypt computation gives, a boolean
    (does hashing again give the stored hash) when that computation
    returns and its exception when it raises; when the hash does not
    have three fields, [verify_password] raises ValueError and returns
    nothing. *)
Theorem verify_password_follows_checkpw (password hashed : str)
    (pb hb : Utf8.bytes) :
  Utf8.encode password = Ret pb ->
  Utf8.encode hashed = Ret hb ->
  (forall version cost remainder,
     Bcrypt.raw_parts hb = [version; cost; remainder] ->
     verify_password P password hashed =
       match bcrypt_crypt P pb version cost remainder with
       | Ret digest => Ret (str_eqb digest hb)
       | Raise e => Raise e
       end) /\
  (List.length (Bcrypt.raw_parts hb) <> 3%nat ->
   verify_password P password hashed =
     Raise (ValueError (py "Invalid salt")) /\
   forall b, verify_password P password hashed <> Ret b).
Proof.
  intros Hp Hh. split.
  - intros v c r Hparts.
    unfold verify_password, Bcrypt.checkpw, Bcrypt.hashpw.
    now rewrite Hp, Hh, Hparts.
  - intros Hn.
    rewrite (verify_password_invalid_salt password hashed pb hb Hp Hh Hn).
    split; [reflexivity | discriminate].
Qed.

End PasswordVerification.

Lemma verify_password_follows_checkpw_witness :
  let P := Sample.platform0 in
  let pb := List.map N_of_ascii (list_ascii_of_string "SecureP@ssw0rd123!") in
  let hb := Sample.stored_hash in
  Utf8.encode Sample.strong_password = Py.Ret pb /\
  Utf8.encode Sample.stored_hash = Py.Ret hb /\
  Bcrypt.raw_parts hb =
    [py "2b"; py "12"; py "0000000000000000000000SecureP@ssw0rd123!"] /\
  Authentication.verify_password P Sample.strong_password Sample.stored_hash
    = Py.Ret true.
Proof.
  intros P pb hb.
  assert (H1 : Utf8.encode Sample.strong_password = Py.Ret pb)
    by (vm_compute; reflexivity).
  assert (H2 : Utf8.encode Sample.stored_hash = Py.Ret hb)
    by (vm_compute; reflexivity).
  assert (H3 : Bcrypt.raw_parts hb =
               [py "2b"; py "12";
                py "0000000000000000000000SecureP@ssw0rd123!"])
    by (vm_compute; reflexivity).
  split; [exact H1|]. split; [exact H2|]. split; [exact H3|].
  exact (proj1 (verify_password_follows_checkpw P Sample.strong_password
                  Sample.stored_hash pb hb H1 H2) _ _ _ H3).
Defined.

(** A stored value that is not a bcrypt hash: [verify_password] raises
    instead of returning false. *)
Lemma verify_password_raises_on_malformed_hash :
  Authentication.verify_password Sample.platform0 Sample.strong_password
    (py "not-a-bcrypt-hash") = Py.Raise (Py.ValueError (py "Invalid salt")) /\
  ~ (forall password hashed, exists b : bool,
       Authentication.verify_password Sample.platform0 password hashed
         = Py.Ret b).
Proof.
  assert (H : Authentication.verify_password Sample.platform0
                Sample.strong_password (py "not-a-bcrypt-hash")
              = Py.Raise (Py.ValueError (py "Invalid salt")))
    by (vm_compute; reflexivity).
  split; [exact H|].
  intros Hall.
  destruct (Hall Sample.strong_password (py "not-a-bcrypt-hash")) as [b Hb].
  rewrite H in Hb. discriminate.
Qed.

(** ** services/auth_service.py: the subject of issued tokens *)

Section TokenSubject.
Import Py Schema Runtime Platform Authentication AuthSvc Sample.

(** For a row whose key is text, the subject handed to the token
    constructors is a new random UUID: it depends on the entropy alone,
    not on the key. *)
Lemma token_subject_of_text_key (user : User) (s : str) (w : world) :
  user_id user = IdStr s ->
  fst (token_subject user w) =
    Ret (IdUuid (Uuid.set_version4
                   (N.modulo (entropy w (entropy_reads w)) (2 ^ 128)))).
Proof. intros H. unfold token_subject. now rewrite H. Qed.

Lemma token_subject_of_uuid_key (user : User) (n : N) (w : world) :
  user_id user = IdUuid n ->
  token_subject user w = (Ret (IdUuid n), w).
Proof. intros H. unfold token_subject. now rewrite H. Qed.

(** C1, at a row as the table holds it. Alice's key is the text
    [alice_id]. Her login succeeds, and the [sub] claims of the access
    and refresh tokens it issues are two new UUIDs, neither of them her
    key; decoding the access token recovers that UUID; presenting the
    refresh token finds no user. A refresh with a token that does name
    her key succeeds and again issues an access token whose [sub] is a
    new UUID. *)
Theorem issued_tokens_carry_fresh_uuid :
  user_id (alice (py "active") true) = IdStr alice_id /\
  get (returned [] alice_login) "success" = Some (VBool true) /\
  Jose.claim (token_of alice_login "access_token") "sub"
    = Some (VStr first_uuid) /\
  Jose.claim (token_of alice_login "refresh_token") "sub"
    = Some (VStr second_uuid) /\
  first_uuid <> alice_id /\ second_uuid <> alice_id /\
  (exists claims,
     fst (decode_token platform0 (token_of alice_login "access_token")
            (snd alice_login)) = Ret (Some claims) /\
     get claims "sub" = Some (VStr first_uuid)) /\
  fst (refresh_access_token platform0 (token_of alice_login "refresh_token")
         (snd alice_login)) = Ret (failure (py "User not found")) /\
  Jose.claim (returned VNone alice_refresh_token) "sub"
    = Some (VStr alice_id) /\
  get (returned [] alice_refresh) "success" = Some (VBool true) /\
  Jose.claim (token_of alice_refresh "access_token") "sub"
    = Some (VStr first_uuid).
Proof.
  split; [reflexivity|].
  split; [vm_compute; reflexivity|].
  split; [vm_compute; reflexivity|].
  split; [vm_compute; reflexivity|].
  split; [vm_compute; discriminate|].
  split; [vm_compute; discriminate|].
  split.
  { eexists. split; vm_compute; reflexivity. }
  split; [vm_compute; reflexivity|].
  split; [vm_compute; reflexivity|].
  split; vm_compute; reflexivity.
Qed.

End TokenSubject.

(** ** security/authentication.py: issuing and decoding tokens *)

Section TokenCodec.
Import Py Schema Runtime Platform Authentication Parts2.
Variable P : platform.

(** The world after one read of the clock. *)
Lemma datetime_now_run (w : world) :
  datetime_now w =
  (Ret (clock w (clock_reads w)),
   mkWorld (session w) (clock w) (S (clock_reads w)) (today w)
           (entropy w) (entropy_reads w)).
Proof. reflexivity. Qed.

(** What [create_access_token] returns when it returns. *)
Lemma create_access_token_run (uid : ident) (email role : str)
    (delta : option Z) (w w' : world) (t : value) :
  create_access_token P uid email role delta w = (Ret t, w') ->
  let now := clock w (clock_reads w) in
  let d := match delta with
           | None => Calendar.timedelta 0 ACCESS_TOKEN_EXPIRE_MINUTES
           | Some d => d
           end in
  t = VJws JWT_ALGORITHM
        [("sub"%string, VStr (str_of_ident uid));
         ("email"%string, VStr email);
         ("role"%string, VStr role);
         ("exp"%string, VInt (Calendar.timegm (now + d)));
         ("iat"%string, VInt (Calendar.timegm now))]
        (_PRIVATE_KEY P) /\
  w' = mkWorld (session w) (clock w) (S (clock_reads w)) (today w)
               (entropy w) (entropy_reads w).
Proof.
  unfold create_access_token, bind, lift, ret, Calendar.datetime_add.
  rewrite datetime_now_run.
  destruct (_ && _); [|discriminate].
  intros [= <- <-]. split; reflexivity.
Qed.

Lemma in_algorithms (alg : str) :
  str_in alg [JWT_ALGORITHM] = str_eqb alg JWT_ALGORITHM.
Proof. unfold str_in; simpl. apply orb_false_r. Qed.

(** [str.encode] raises nothing but UnicodeEncodeError. *)
Lemma encode_raises_unicode (s : str) (e : exn) :
  Utf8.encode s = Raise e -> e = UnicodeEncodeError.
Proof.
  induction s as [|c s IH]; simpl; [discriminate|].
  destruct (Utf8.encode_char c); destruct (Utf8.encode s);
    intros [= <-]; auto.
Qed.

Lemma untouched_refl (w : world) : untouched w w.
Proof. unfold untouched. repeat split; lia. Qed.

Lemma untouched_tick (w w' : world) : untouched w w' -> untouched w (tick w').
Proof.
  unfold untouched, tick. cbn. intros (H1 & H2 & H3 & H4 & H5 & H6).
  repeat split; auto.
Qed.

Lemma validate_iat_run (claims : dict) (w : world) :
  Jose.validate_iat (int_of_str P) claims w = (Ret tt, w) \/
  Jose.validate_iat (int_of_str P) claims w = (Raise JWTError, w) \/
  (Jose.validate_iat (int_of_str P) claims w = (Raise TypeError, w) /\
   time_claim_raises P claims "iat").
Proof.
  unfold Jose.validate_iat, time_claim_raises, ret, raise.
  destruct (get claims "iat") as [v|]; [|auto].
  destruct (Jose.int_of (int_of_str P) v) eqn:E; eauto 6.
Qed.

Lemma validate_nbf_run (claims : dict) (w : world) :
  exists w', (w' = w \/ w' = tick w) /\
    (Jose.validate_nbf (int_of_str P) claims w = (Ret tt, w') \/
     Jose.validate_nbf (int_of_str P) claims w = (Raise JWTError, w') \/
     (Jose.validate_nbf (int_of_str P) claims w = (Raise TypeError, w') /\
      time_claim_raises P claims "nbf")).
Proof.
  unfold Jose.validate_nbf, time_claim_raises, ret, raise, bind.
  destruct (get claims "nbf") as [v|]; [|exists w; auto].
  destruct (Jose.int_of (int_of_str P) v) eqn:E.
  - rewrite datetime_now_run. fold (tick w).
    exists (tick w). split; [auto|]. destruct (_ <? _); auto.
  - exists w; auto.
  - exists w; split; [auto|]. right; right. eauto.
Qed.

Lemma validate_exp_run (claims : dict) (w : world) :
  exists w', (w' = w \/ w' = tick w) /\
    ((Jose.validate_exp (int_of_str P) claims w = (Ret tt, w') /\
      forall exp, get claims "exp" = Some (VInt exp) ->
                  Calendar.timegm (clock w (clock_reads w)) <= exp) \/
     Jose.validate_exp (int_of_str P) claims w = (Raise JWTError, w') \/
     (Jose.validate_exp (int_of_str P) claims w = (Raise TypeError, w') /\
      time_claim_raises P claims "exp")).
Proof.
  unfold Jose.validate_exp, time_claim_raises, ret, raise, bind.
  destruct (get claims "exp") as [v|].
  2:{ exists w; split; [auto|]. left. split; [reflexivity|discriminate]. }
  destruct (Jose.int_of (int_of_str P) v) eqn:E.
  - rewrite datetime_now_run. fold (tick w).
    exists (tick w). split; [auto|].
    destruct (Z.ltb_spec z (Calendar.timegm (clock w (clock_reads w))));
      [auto|].
    left. split; [reflexivity|]. intros exp [= ->].
    cbn in E. injection E as <-. assumption.
  - exists w; auto.
  - exists w; split; [auto|]. right; right. eauto.
Qed.

(** The validators of the other claims pass or refuse, on the spot. *)
Lemma validate_rest_run (claims : dict) (w : world) :
  (Jose.validate_aud claims ;;; Jose.validate_sub claims ;;;
   Jose.validate_jti claims ;;; Jose.validate_at_hash claims)%pym w
    = (Ret tt, w) \/
  (Jose.validate_aud claims ;;; Jose.validate_sub claims ;;;
   Jose.validate_jti claims ;;; Jose.validate_at_hash claims)%pym w
    = (Raise JWTError, w).
Proof.
  unfold Jose.validate_aud, Jose.validate_sub, Jose.validate_jti,
    Jose.validate_at_hash, bind, ret, raise.
  destruct (get claims "aud"); [auto|].
  destruct (get claims "sub") as [v|];
    [destruct (Jose.is_text v); [|auto]|];
    (destruct (get claims "jti") as [v'|];
     [destruct (Jose.is_text v'); [|auto]|]);
    destruct (get claims "at_hash"); auto.
Qed.

(** The validation of the claims as a whole: at most two reads of the
    clock and nothing else touched; it passes, refuses with JWTError, or
    lets through the TypeError of [int] on a time claim. *)
Lemma validate_claims_run (claims : dict) (w : world) :
  exists o w',
    Jose.validate_claims (int_of_str P) claims w = (o, w') /\
    untouched w w' /\
    match o with
    | Ret _ =>
        forall exp, get claims "exp" = Some (VInt exp) ->
        exists n, (n = clock_reads w \/ n = S (clock_reads w)) /\
                  Calendar.timegm (clock w n) <= exp
    | Raise e =>
        e = JWTError \/
        (e = TypeError /\
         (time_claim_raises P claims "iat" \/
          time_claim_raises P claims "nbf" \/
          time_claim_raises P claims "exp"))
    end.
Proof.
  unfold Jose.validate_claims. unfold bind at 1.
  destruct (validate_iat_run claims w) as [Hi | [Hi | [Hi Hty]]]; rewrite Hi.
  2:{ do 2 eexists. split; [reflexivity|].
      split; [apply untouched_refl|auto]. }
  2:{ do 2 eexists. split; [reflexivity|].
      split; [apply untouched_refl|auto]. }
  unfold bind at 1.
  destruct (validate_nbf_run claims w)
    as (w1 & Hw1 & [Hn | [Hn | [Hn Hty]]]); rewrite Hn;
    assert (Hu1 : untouched w w1)
      by (destruct Hw1 as [-> | ->];
          [apply untouched_refl | apply untouched_tick, untouched_refl]).
  2:{ do 2 eexists. split; [reflexivity|]. split; [exact Hu1|auto]. }
  2:{ do 2 eexists. split; [reflexivity|]. split; [exact Hu1|auto]. }
  unfold bind at 1.
  destruct (validate_exp_run claims w1)
    as (w2 & Hw2 & [[He Hexp] | [He | [He Hty]]]); rewrite He;
    assert (Hu2 : untouched w w2)
      by (destruct Hw2 as [-> | ->];
          [exact Hu1 | apply untouched_tick; exact Hu1]).
  2:{ do 2 eexists. split; [reflexivity|]. split; [exact Hu2|auto]. }
  2:{ do 2 eexists. split; [reflexivity|]. split; [exact Hu2|auto]. }
  assert (Hbound : forall exp, get claims "exp" = Some (VInt exp) ->
            exists n, (n = clock_reads w \/ n = S (clock_reads w)) /\
                      Calendar.timegm (clock w n) <= exp).
  { intros exp Hx. specialize (Hexp exp Hx).
    exists (clock_reads w1).
    destruct Hw1 as [-> | ->]; cbn in *; auto. }
  destruct (validate_rest_run claims w2) as [Hr | Hr]; rewrite Hr.
  - do 2 eexists. split; [reflexivity|]. split; [exact Hu2|exact Hbound].
  - do 2 eexists. split; [reflexivity|]. split; [exact Hu2|auto].
Qed.

(** The outcomes of [decode_token]. *)
Lemma decode_token_run (token : value) (w : world) :
  exists o w',
    decode_token P token w = (o, w') /\
    untouched w w' /\
    match o with
    | Ret None => True
    | Ret (Some claims) =>
        token = VJws JWT_ALGORITHM claims (_PUBLIC_KEY P) /\
        forall exp, get claims "exp" = Some (VInt exp) ->
        exists n, (n = clock_reads w \/ n = S (clock_reads w)) /\
                  Calendar.timegm (clock w n) <= exp
    | Raise e =>
        (e = UnicodeEncodeError /\
         exists s, token = VStr s /\ Utf8.encode s = Raise UnicodeEncodeError)
        \/
        (e = AttributeError /\ Jose.is_text token = false) \/
        (e = TypeError /\
         exists claims,
           token = VJws JWT_ALGORITHM claims (_PUBLIC_KEY P) /\
           (time_claim_raises P claims "iat" \/
            time_claim_raises P claims "nbf" \/
            time_claim_raises P claims "exp"))
    end.
Proof.
  unfold decode_token, except_JWTError, Jose.decode. unfold bind at 1.
  destruct token as [| | |s| | | |alg claims signer];
    try (do 2 eexists; split; [reflexivity|];
         split; [apply untouched_refl|]; right; left; auto).
  - destruct (Utf8.encode s) as [bs|e] eqn:Eenc.
    + do 2 eexists. split; [reflexivity|].
      split; [apply untouched_refl|exact I].
    + pose proof (encode_raises_unicode s e Eenc) as ->.
      do 2 eexists. split; [reflexivity|].
      split; [apply untouched_refl|]. left. eauto.
  - destruct (negb (truthy (VStr alg))).
    { do 2 eexists. split; [reflexivity|].
      split; [apply untouched_refl|exact I]. }
    rewrite in_algorithms.
    destruct (str_eqb alg JWT_ALGORITHM) eqn:Ealg; cbn [negb].
    2:{ do 2 eexists. split; [reflexivity|].
        split; [apply untouched_refl|exact I]. }
    destruct (N.eqb signer (_PUBLIC_KEY P)) eqn:Ekey; cbn [negb].
    2:{ do 2 eexists. split; [reflexivity|].
        split; [apply untouched_refl|exact I]. }
    apply str_eqb_eq in Ealg. apply N.eqb_eq in Ekey. subst alg signer.
    unfold bind at 1.
    destruct (validate_claims_run claims w) as (o & w1 & Hv & Hu & Ho).
    rewrite Hv. destruct o as [[]|e].
    + do 2 eexists. split; [reflexivity|]. split; [exact Hu|].
      split; [reflexivity|exact Ho].
    + destruct Ho as [-> | [-> Hty]].
      * do 2 eexists. split; [reflexivity|]. split; [exact Hu|exact I].
      * do 2 eexists. split; [reflexivity|]. split; [exact Hu|].
        right; right. split; [reflexivity|]. exists claims. auto.
Qed.


(** The claims of an issued access token pass the validation with one
    read of the clock, unless the token has expired. *)
Lemma issued_claims_validate (sub email role : str) (exp iat : Z)
    (w : world) :
  let claims : dict :=
    [("sub"%string, VStr sub); ("email"%string, VStr email);
     ("role"%string, VStr role); ("exp"%string, VInt exp);
     ("iat"%string, VInt iat)] in
  Jose.validate_claims (int_of_str P) claims w =
  (if exp <? Calendar.timegm (clock w (clock_reads w))
   then Raise JWTError else Ret tt, tick w).
Proof.
  cbv zeta.
  unfold Jose.validate_claims, Jose.validate_iat, Jose.validate_nbf,
    Jose.validate_exp, Jose.validate_aud, Jose.validate_sub,
    Jose.validate_jti, Jose.validate_at_hash.
  cbn [get String.eqb Ascii.eqb Bool.eqb Jose.int_of Jose.is_text].
  unfold bind, ret, raise. rewrite datetime_now_run. fold (tick w).
  destruct (exp <? _); reflexivity.
Qed.

(** Decoding an issued access token. *)
Lemma decode_issued (sub email role : str) (exp iat : Z) (w : world) :
  let claims : dict :=
    [("sub"%string, VStr sub); ("email"%string, VStr email);
     ("role"%string, VStr role); ("exp"%string, VInt exp);
     ("iat"%string, VInt iat)] in
  decode_token P (VJws JWT_ALGORITHM claims (_PRIVATE_KEY P)) w =
  if negb (N.eqb (_PRIVATE_KEY P) (_PUBLIC_KEY P)) then (Ret None, w)
  else if exp <? Calendar.timegm (clock w (clock_reads w))
       then (Ret None, tick w)
       else (Ret (Some claims), tick w).
Proof.
  cbv zeta.
  unfold decode_token, except_JWTError, Jose.decode. unfold bind at 1.
  change (negb (truthy (VStr JWT_ALGORITHM))) with false. cbv iota.
  rewrite in_algorithms, str_eqb_refl. cbn [negb].
  destruct (N.eqb (_PRIVATE_KEY P) (_PUBLIC_KEY P)); cbn [negb];
    [|reflexivity].
  unfold bind at 1. rewrite issued_claims_validate.
  destruct (exp <? _); reflexivity.
Qed.

(** Decoding a token just issued, before its expiry: the claims, and the
    world after the one clock read of the decoder. *)
Lemma access_token_decodes (uid : ident) (email role : str)
    (delta : option Z) (w w' : world) (t : value) :
  private_key_file P = public_key_file P ->
  create_access_token P uid email role delta w = (Ret t, w') ->
  Calendar.timegm (clock w' (clock_reads w')) <=
    Calendar.timegm
      (clock w (clock_reads w) +
       match delta with
       | None => Calendar.timedelta 0 ACCESS_TOKEN_EXPIRE_MINUTES
       | Some d => d
       end) ->
  exists claims w'',
    decode_token P t w' = (Ret (Some claims), w'') /\
    get claims "sub" = Some (VStr (str_of_ident uid)) /\
    w'' = mkWorld (session w') (clock w') (S (clock_reads w')) (today w')
                  (entropy w') (entropy_reads w').
Proof.
  intros Hkeys Hcreate Hfresh.
  apply create_access_token_run in Hcreate as [-> Hw'].
  rewrite decode_issued.
  unfold _PRIVATE_KEY, _PUBLIC_KEY. rewrite Hkeys, N.eqb_refl. cbn [negb].
  destruct (Z.ltb_spec
              (Calendar.timegm
                 (clock w (clock_reads w) +
                  match delta with
                  | Some d => d
                  | None => Calendar.timedelta 0 ACCESS_TOKEN_EXPIRE_MINUTES
                  end))
              (Calendar.timegm (clock w' (clock_reads w')))) as [Hlt|_].
  - exfalso. lia.
  - do 2 eexists. repeat split.
Qed.

(** An access token decodes to the claims it was issued with, as long
    as the two key files are one key pair and the second of its expiry
    has not passed. *)
Theorem access_token_round_trip (uid : ident) (email role : str)
    (delta : option Z) (w w' : world) (t : value) :
  private_key_file P = public_key_file P ->
  create_access_token P uid email role delta w = (Ret t, w') ->
  Calendar.timegm (clock w' (clock_reads w')) <=
    Calendar.timegm
      (clock w (clock_reads w) +
       match delta with
       | None => Calendar.timedelta 0 ACCESS_TOKEN_EXPIRE_MINUTES
       | Some d => d
       end) ->
  exists claims w'',
    decode_token P t w' = (Ret (Some claims), w'') /\
    get claims "sub" = Some (VStr (str_of_ident uid)) /\
    get claims "email" = Some (VStr email) /\
    get claims "role" = Some (VStr role) /\
    get claims "iat" =
      Some (VInt (Calendar.timegm (clock w (clock_reads w)))) /\
    Jose.claim t "exp" = get claims "exp".
Proof.
  intros Hkeys Hcreate Hfresh.
  apply create_access_token_run in Hcreate as [-> Hw'].
  rewrite decode_issued.
  unfold _PRIVATE_KEY, _PUBLIC_KEY. rewrite Hkeys, N.eqb_refl. cbn [negb].
  destruct (Z.ltb_spec
              (Calendar.timegm
                 (clock w (clock_reads w) +
                  match delta with
                  | Some d => d
                  | None => Calendar.timedelta 0 ACCESS_TOKEN_EXPIRE_MINUTES
                  end))
              (Calendar.timegm (clock w' (clock_reads w')))) as [Hlt|_].
  - exfalso. lia.
  - do 2 eexists. repeat split.
Qed.

(** A token issued with a lifetime of minus one second or less is
    refused as soon as it is decoded, provided the clock did not run
    backwards in between. *)
Theorem expired_token_is_refused (uid : ident) (email role : str)
    (d : Z) (w w' : world) (t : value) :
  d <= -1000000 ->
  clock w (clock_reads w) <= clock w (S (clock_reads w)) ->
  create_access_token P uid email role (Some d) w = (Ret t, w') ->
  exists w'', decode_token P t w' = (Ret None, w'').
Proof.
  intros Hd Hclock Hcreate.
  apply create_access_token_run in Hcreate as [-> ->].
  rewrite decode_issued.
  destruct (N.eqb (_PRIVATE_KEY P) (_PUBLIC_KEY P)); cbn [negb];
    [|eexists; reflexivity].
  cbn [clock clock_reads].
  set (now := clock w (clock_reads w)) in *.
  set (later := clock w (S (clock_reads w))) in *.
  assert (Hexp : Calendar.timegm (now + d) < Calendar.timegm later).
  { unfold Calendar.timegm.
    assert (H1 : (now + d) / 1000000 <= (now + (-1) * 1000000) / 1000000)
      by (apply Z.div_le_mono; lia).
    rewrite Z.div_add in H1 by lia.
    assert (H2 : now / 1000000 <= later / 1000000)
      by (apply Z.div_le_mono; lia).
    lia. }
  apply Z.ltb_lt in Hexp. rewrite Hexp. eexists; reflexivity.
Qed.

End TokenCodec.

(** ** Looking rows up *)

Section Lookup.
Import Py Schema Runtime.

Lemma first_from_some (p : User -> bool) (rows : list User) (i j : nat)
    (u : User) :
  first_from p i rows = Some (j, u) ->
  p u = true /\ In u rows /\ (i <= j)%nat /\
  nth_error rows (j - i) = Some u.
Proof.
  revert i. induction rows as [|r rows IH]; intros i; simpl; [discriminate|].
  destruct (p r) eqn:E.
  - intros [= <- <-]. rewrite Nat.sub_diag. auto.
  - intros H. apply IH in H as (Hp & Hin & Hle & Hnth).
    repeat split; auto; [lia|].
    replace (j - i)%nat with (S (j - S i)) by lia. exact Hnth.
Qed.

Lemma first_from_none (p : User -> bool) (rows : list User) (i : nat) :
  first_from p i rows = None <-> forall u, In u rows -> p u = false.
Proof.
  revert i. induction rows as [|r rows IH]; intros i; simpl.
  - split; [intros _ u []|reflexivity].
  - destruct (p r) eqn:E.
    + split; [discriminate|]. intros H. rewrite (H r) in E by auto.
      discriminate.
    + rewrite IH. split.
      * intros H u [<-|Hu]; auto.
      * intros H u Hu. apply H. auto.
Qed.

End Lookup.

(** ** security/authorization.py: resolving the current user *)

Section CurrentUser.
Import Py Schema Runtime Platform Authentication Authorization Parts2.
Variable P : platform.


End CurrentUser.

(** ** services/auth_service.py: refreshing *)

Section Refresh.
Import Py Schema Runtime Platform Authentication Authorization AuthSvc.
Import Parts Parts2.
Variable P : platform.

(** [refresh_access_token], check by check, from the result of decoding
    the token. *)
Lemma refresh_access_token_unfold (token : value) (w w1 : world)
    (r : option dict) :
  decode_token P token w = (Ret r, w1) ->
  refresh_access_token P token w =
  match r with
  | None => (Ret (failure (py "Invalid or expired refresh token")), w1)
  | Some payload =>
      if negb (truthy (subject_of payload)) then
        (Ret (failure (py "Invalid token payload")), w1)
      else
        match first_from (user_id_is (subject_of payload)) 0 (session w1) with
        | None => (Ret (failure (py "User not found")), w1)
        | Some (_, user) =>
            if negb (str_eqb (status user) (py "active")) then
              (Ret (failure (py "User account is not active")), w1)
            else reissue P user w1
        end
  end.
Proof.
  intros Hdec. unfold refresh_access_token, bind. rewrite Hdec.
  destruct r as [payload|]; [|reflexivity].
  fold (subject_of payload).
  destruct (negb (truthy (subject_of payload))); [reflexivity|].
  unfold query_first.
  destruct (first_from _ 0 (session w1)) as [[row user]|]; [|reflexivity].
  destruct (negb (str_eqb (status user) (py "active"))); reflexivity.
Qed.

(** A decoder that raises makes [refresh_access_token] raise the same. *)
Lemma refresh_access_token_raises (token : value) (w w1 : world) (e : exn) :
  decode_token P token w = (Raise e, w1) ->
  refresh_access_token P token w = (Raise e, w1).
Proof.
  intros Hdec. unfold refresh_access_token, bind. now rewrite Hdec.
Qed.

(** Issuing the new access token leaves the table alone; the token it
    returns carries the email and the role of the row. *)
Lemma reissue_outcome (user : User) (w w' : world) (o : outcome dict) :
  reissue P user w = (o, w') ->
  session w' = session w /\
  forall r, o = Ret r ->
    get r "success" = Some (VBool true) /\
    get r "refresh_token" = None /\
    exists t, get r "access_token" = Some t /\
              Jose.claim t "email" = Some (VStr (Schema.email user)) /\
              Jose.claim t "role" = Some (VStr (role user)).
Proof.
  unfold reissue, bind.
  destruct (token_subject user w) as [[subject|e] w1] eqn:Hsub.
  2:{ intros [= <- <-]. unfold token_subject, Uuid.uuid4, urandom16, bind,
        ret in Hsub.
      destruct (user_id user); discriminate. }
  assert (Hs1 : session w1 = session w).
  { unfold token_subject, Uuid.uuid4, urandom16, bind, ret in Hsub.
    destruct (user_id user); injection Hsub as _ <-; reflexivity. }
  destruct (create_access_token P subject (Schema.email user) (role user)
              None w1) as [[t|e] w2] eqn:Hcreate.
  - apply create_access_token_run in Hcreate as [-> ->].
    unfold ret. intros [= <- <-]. split; [exact Hs1|].
    intros r [= <-]. split; [reflexivity|]. split; [reflexivity|].
    eexists. split; [reflexivity|]. split; reflexivity.
  - intros [= <- <-]. split; [|discriminate].
    unfold create_access_token, bind, lift, ret, Calendar.datetime_add
      in Hcreate.
    rewrite datetime_now_run in Hcreate.
    destruct (_ && _); [discriminate|].
    injection Hcreate as _ <-. exact Hs1.
Qed.

(** [refresh_access_token] never changes the table. When it reports
    success, the token decoded, its [sub] is the key of an active row,
    and the new access token carries that row's email and role; the
    answer holds no refresh token (the presented one is not replaced). *)
Theorem refresh_access_token_outcomes (token : value) (w w' : world)
    (o : outcome dict) :
  refresh_access_token P token w = (o, w') ->
  session w' = session w /\
  forall r,
    o = Ret r -> get r "success" = Some (VBool true) ->
    get r "refresh_token" = None /\
    exists claims row user t,
      fst (decode_token P token w) = Ret (Some claims) /\
      first_from (user_id_is (subject_of claims)) 0 (session w)
        = Some (row, user) /\
      get claims "sub" = Some (VStr (str_of_ident (user_id user))) /\
      status user = py "active" /\
      get r "access_token" = Some t /\
      Jose.claim t "email" = Some (VStr (Schema.email user)) /\
      Jose.claim t "role" = Some (VStr (role user)).
Proof.
  destruct (decode_token_run P token w) as (o0 & w1 & Hdec & Hu & _).
  pose proof Hu as (Hs & _).
  destruct o0 as [r0|e].
  2:{ rewrite (refresh_access_token_raises token w w1 e Hdec).
      intros [= <- <-]. split; [exact Hs|]. discriminate. }
  rewrite (refresh_access_token_unfold token w w1 r0 Hdec).
  rewrite Hdec. cbn [fst].
  destruct r0 as [claims|].
  2:{ intros [= <- <-]. split; [exact Hs|]. intros r [= <-]. discriminate. }
  destruct (truthy (subject_of claims)) eqn:Etruthy; cbn [negb].
  2:{ intros [= <- <-]. split; [exact Hs|]. intros r [= <-]. discriminate. }
  rewrite Hs.
  destruct (first_from (user_id_is (subject_of claims)) 0 (session w))
    as [[row user]|] eqn:Efound.
  2:{ intros [= <- <-]. split; [exact Hs|]. intros r [= <-]. discriminate. }
  destruct (str_eqb (status user) (py "active")) eqn:Eactive; cbn [negb].
  2:{ intros [= <- <-]. split; [exact Hs|]. intros r [= <-]. discriminate. }
  intros Hre. apply reissue_outcome in Hre as [Hs' Hok].
  split; [congruence|].
  intros r Hr _. destruct (Hok r Hr) as (_ & Hnone & t & Ht & He & Hrole).
  split; [exact Hnone|].
  exists claims, row, user, t.
  apply str_eqb_eq in Eactive.
  pose proof (first_from_some _ _ _ _ _ Efound) as (Hp & _).
  repeat split; auto.
  unfold user_id_is, subject_of in Hp. unfold subject_of in Etruthy.
  destruct (get claims "sub") as [[| | |s| | | |]|]; try discriminate.
  apply str_eqb_eq in Hp. now rewrite Hp.
Qed.

(** [refresh_access_token] does not look at the [type] claim: an access
    token, presented while it is valid, refreshes as a refresh token
    would, provided the two key files are one pair, its subject is the
    key of an active row, and the clock stays within [datetime]'s
    range. *)
Theorem access_token_refreshes (uid : ident) (email role : str)
    (w w1 : world) (t : value) (row : nat) (user : User) :
  private_key_file P = public_key_file P ->
  create_access_token P uid email role None w = (Ret t, w1) ->
  str_of_ident uid <> [] ->
  first_from (user_id_is (VStr (str_of_ident uid))) 0 (session w)
    = Some (row, user) ->
  status user = py "active" ->
  Calendar.timegm (clock w (S (clock_reads w))) <=
    Calendar.timegm (clock w (clock_reads w) +
                     Calendar.timedelta 0 ACCESS_TOKEN_EXPIRE_MINUTES) ->
  Calendar.datetime_min <= clock w (S (S (clock_reads w))) <=
    Calendar.datetime_max -
    Calendar.timedelta 0 ACCESS_TOKEN_EXPIRE_MINUTES ->
  Jose.claim t "type" = None /\
  exists r w2,
    refresh_access_token P t w1 = (Ret r, w2) /\
    get r "success" = Some (VBool true).
Proof.
  intros Hkeys Hcreate Hsub Hfound Hactive Hfresh Hrange.
  pose proof Hcreate as Hrun.
  apply create_access_token_run in Hrun as [Ht Hw1].
  split; [rewrite Ht; reflexivity|].
  assert (Hfresh' :
            Calendar.timegm (clock w1 (clock_reads w1)) <=
            Calendar.timegm (clock w (clock_reads w) +
                             Calendar.timedelta 0 ACCESS_TOKEN_EXPIRE_MINUTES))
    by (rewrite Hw1; exact Hfresh).
  destruct (access_token_decodes P uid email role None w w1 t Hkeys Hcreate
              Hfresh') as (claims & w2 & Hdec & Hsubc & Hw2).
  rewrite (refresh_access_token_unfold t w1 w2 (Some claims) Hdec).
  unfold subject_of. rewrite Hsubc. cbn [truthy].
  destruct (str_of_ident uid) as [|c rest] eqn:Es; [now contradiction Hsub|].
  cbn [negb].
  assert (Hs2 : session w2 = session w) by (rewrite Hw2, Hw1; reflexivity).
  rewrite Hs2, Hfound.
  apply str_eqb_eq in Hactive. rewrite Hactive. cbn [negb].
  unfold reissue, bind.
  assert (Hsubject : exists subject w3,
             token_subject user w2 = (Ret subject, w3) /\
             clock w3 = clock w /\
             clock_reads w3 = S (S (clock_reads w))).
  { unfold token_subject, Uuid.uuid4, urandom16, bind, ret.
    rewrite Hw2, Hw1.
    destruct (user_id user); do 2 eexists; repeat split. }
  destruct Hsubject as (subject & w3 & -> & Hc3 & Hr3).
  unfold create_access_token, bind, lift, ret, Calendar.datetime_add.
  rewrite datetime_now_run, Hc3, Hr3.
  unfold Calendar.timedelta, ACCESS_TOKEN_EXPIRE_MINUTES,
    Calendar.datetime_min, Calendar.datetime_max in *.
  destruct (Z.leb_spec (-62135596800000000)
              (clock w (S (S (clock_reads w))) +
               (0 * 86400 + 30 * 60) * 1000000)); [|lia].
  destruct (Z.leb_spec (clock w (S (S (clock_reads w))) +
                        (0 * 86400 + 30 * 60) * 1000000)
              253402300799999999); [|lia].
  cbn [andb]. do 2 eexists. split; reflexivity.
Qed.

End Refresh.

(** ** services/auth_service.py: what login and registration do *)

Section SessionRows.
Import Py Schema Runtime.

Lemma replace_nth_length (i : nat) (u : User) (rows : list User) :
  List.length (replace_nth i u rows) = List.length rows.
Proof.
  revert i. induction rows as [|r rows IH]; intros [|i]; simpl; auto.
Qed.

Lemma replace_nth_other (i j : nat) (u : User) (rows : list User) :
  i <> j -> nth_error (replace_nth i u rows) j = nth_error rows j.
Proof.
  revert i j. induction rows as [|r rows IH]; intros [|i] [|j] H; simpl;
    auto; try congruence.
Qed.

Lemma replace_nth_same (i : nat) (u v : User) (rows : list User) :
  nth_error rows i = Some v ->
  nth_error (replace_nth i u rows) i = Some u.
Proof.
  revert i. induction rows as [|r rows IH]; intros [|i]; simpl;
    try discriminate; auto.
Qed.

End SessionRows.

Section LoginEffects.
Import Py Schema Runtime Platform Authentication AuthSvc.
Import Wording Parts Parts2.
Variable P : platform.

(** Choosing the subject returns, and leaves the table alone. *)
Lemma token_subject_returns (user : User) (w : world) :
  exists subject w',
    token_subject user w = (Ret subject, w') /\ session w' = session w.
Proof.
  unfold token_subject, Uuid.uuid4, urandom16, bind, ret.
  destruct (user_id user); do 2 eexists; split; reflexivity.
Qed.

Lemma create_access_token_session (uid : ident) (email role : str)
    (delta : option Z) (w w' : world) (o : outcome value) :
  create_access_token P uid email role delta w = (o, w') ->
  session w' = session w.
Proof.
  unfold create_access_token, bind, lift, ret, Calendar.datetime_add.
  rewrite datetime_now_run.
  destruct (_ && _); intros [= <- <-]; reflexivity.
Qed.

Lemma create_refresh_token_session (uid : ident) (w w' : world)
    (o : outcome value) :
  create_refresh_token P uid w = (o, w') -> session w' = session w.
Proof.
  unfold create_refresh_token, bind, lift, ret, Calendar.datetime_add.
  rewrite datetime_now_run.
  destruct (_ && _); intros [= <- <-]; reflexivity.
Qed.

(** Issuing the tokens stamps the row and changes nothing else in the
    table, also when a token constructor raises. *)
Lemma issue_tokens_outcome (row : nat) (user : User) (w w' : world)
    (o : outcome dict) :
  issue_tokens P row user w = (o, w') ->
  session w' =
    replace_nth row (set_last_login_at user (clock w (clock_reads w)))
      (session w) /\
  forall r, o = Ret r ->
    get r "success" = Some (VBool true) /\
    get r "user" =
      Some (VDict [("user_id"%string, ident_value (user_id user));
                   ("email"%string, VStr (Schema.email user));
                   ("role"%string, VStr (role user));
                   ("point_balance"%string, VInt (point_balance user))]).
Proof.
  unfold issue_tokens, bind. rewrite datetime_now_run.
  unfold session_store.
  set (user' := set_last_login_at user (clock w (clock_reads w))).
  match goal with
  | |- context [token_subject user' ?w0] =>
      destruct (token_subject_returns user' w0)
        as (s1 & w1 & Hs1 & Hw1); rewrite Hs1
  end.
  cbn [session] in Hw1.
  destruct (create_access_token P s1 (Schema.email user') (role user') None w1)
    as [[access|e] w2] eqn:Hacc;
    pose proof (create_access_token_session _ _ _ _ _ _ _ Hacc) as Hw2.
  2:{ intros [= <- <-]. split; [congruence|discriminate]. }
  destruct (token_subject_returns user' w2) as (s2 & w3 & Hs2 & Hw3).
  rewrite Hs2.
  destruct (create_refresh_token P s2 w3) as [[refresh|e] w4] eqn:Href;
    pose proof (create_refresh_token_session _ _ _ _ Href) as Hw4.
  2:{ intros [= <- <-]. split; [congruence|discriminate]. }
  unfold ret. intros [= <- <-]. split; [congruence|].
  intros r [= <-]. split; reflexivity.
Qed.

(** When [login] reports success, the email named a row whose password
    verified, whose email was verified and whose status was active; the
    table afterwards is the table before with that row's last login set
    to the time read; and the user summary in the answer carries the
    row's identifier, email, role and point balance, and nothing else. *)
Theorem login_success_requirements (email password : str) (w w' : world)
    (r : dict) :
  login P email password w = (Ret r, w') ->
  get r "success" = Some (VBool true) ->
  exists row user,
    first_from (fun u => str_eqb (Schema.email u) email) 0 (session w)
      = Some (row, user) /\
    Schema.email user = email /\
    verify_password P password (password_hash user) = Ret true /\
    email_verified user = true /\
    status user = py "active" /\
    session w' =
      replace_nth row (set_last_login_at user (clock w (clock_reads w)))
        (session w) /\
    get r "user" =
      Some (VDict [("user_id"%string, ident_value (user_id user));
                   ("email"%string, VStr (Schema.email user));
                   ("role"%string, VStr (role user));
                   ("point_balance"%string, VInt (point_balance user))]).
Proof.
  rewrite login_unfold.
  destruct (first_from _ 0 (session w)) as [[row user]|] eqn:Efound.
  2:{ intros [= <- <-]. discriminate. }
  destruct (verify_password P password (password_hash user)) as [[|]|e]
    eqn:Epw; try (intros [= <- <-]; discriminate).
  destruct (email_verified user) eqn:Ever; cbn [negb];
    [|intros [= <- <-]; discriminate].
  destruct (str_eqb (status user) (py "suspended"));
    [intros [= <- <-]; discriminate|].
  destruct (str_eqb (status user) (py "banned"));
    [intros [= <- <-]; discriminate|].
  destruct (str_eqb (status user) (py "active")) eqn:Eactive; cbn [negb];
    [|intros [= <- <-]; discriminate].
  intros Hissue _. apply issue_tokens_outcome in Hissue as [Hs Hok].
  destruct (Hok r eq_refl) as [_ Huser].
  exists row, user. apply str_eqb_eq in Eactive.
  pose proof (first_from_some _ _ _ _ _ Efound) as (Hp & _).
  apply str_eqb_eq in Hp.
  repeat split; auto.
Qed.

(** The failures of [login]. *)
Lemma login_failure_cases (email password : str) (w w' : world) (r : dict) :
  login P email password w = (Ret r, w') ->
  get r "success" <> Some (VBool true) ->
  w' = w /\
  (r = invalid_credentials \/
   (r = failure unverified_message \/ r = failure suspended_message \/
    r = failure banned_message \/ r = failure not_active_message)).
Proof.
  rewrite login_unfold. intros Hlogin Hfail.
  destruct (first_from _ 0 (session w)) as [[row user]|].
  2:{ injection Hlogin as <- <-. auto. }
  destruct (verify_password P password (password_hash user)) as [[|]|e];
    [| injection Hlogin as <- <-; auto | discriminate].
  destruct (negb (email_verified user)).
  { injection Hlogin as <- <-. auto. }
  destruct (str_eqb (status user) (py "suspended")).
  { injection Hlogin as <- <-. auto. }
  destruct (str_eqb (status user) (py "banned")).
  { injection Hlogin as <- <-. auto 6. }
  destruct (negb (str_eqb (status user) (py "active"))).
  { injection Hlogin as <- <-. auto 6. }
  apply issue_tokens_outcome in Hlogin as [_ Hok].
  destruct (Hok r eq_refl) as [Hsucc _]. contradiction.
Qed.

(** A [login] that does not report success answers with one of five
    failures (bad credentials, unverified email, suspended, banned, not
    active), told apart by their messages, and leaves the whole process
    state as it was. *)
Theorem login_failure_classification (email password : str) (w w' : world)
    (r : dict) :
  login P email password w = (Ret r, w') ->
  get r "success" <> Some (VBool true) ->
  w' = w /\
  In r [invalid_credentials; failure unverified_message;
        failure suspended_message; failure banned_message;
        failure not_active_message] /\
  NoDup [invalid_credentials; failure unverified_message;
         failure suspended_message; failure banned_message;
         failure not_active_message].
Proof.
  rewrite login_unfold. intros Hlogin Hfail.
  assert (Hdup : NoDup [invalid_credentials; failure unverified_message;
                        failure suspended_message; failure banned_message;
                        failure not_active_message]).
  { repeat constructor; simpl; intuition; try discriminate. }
  assert (Hpick : forall x, In x [invalid_credentials;
                                  failure unverified_message;
                                  failure suspended_message;
                                  failure banned_message;
                                  failure not_active_message] ->
                              (Ret x, w) = (Ret r, w') ->
                              w' = w /\
                              In r [invalid_credentials;
                                    failure unverified_message;
                                    failure suspended_message;
                                    failure banned_message;
                                    failure not_active_message] /\
                              NoDup [invalid_credentials;
                                     failure unverified_message;
                                     failure suspended_message;
                                     failure banned_message;
                                     failure not_active_message]).
  { intros x Hx [= <- <-]. auto. }
  destruct (first_from _ 0 (session w)) as [[row user]|].
  2:{ apply (Hpick _ (or_introl eq_refl) Hlogin). }
  destruct (verify_password P password (password_hash user)) as [[|]|e];
    [| apply (Hpick _ (or_introl eq_refl) Hlogin) | discriminate].
  destruct (negb (email_verified user)).
  { apply (Hpick _ (or_intror (or_introl eq_refl)) Hlogin). }
  destruct (str_eqb (status user) (py "suspended")).
  { apply (Hpick _ (or_intror (or_intror (or_introl eq_refl))) Hlogin). }
  destruct (str_eqb (status user) (py "banned")).
  { apply (Hpick _ (or_intror (or_intror (or_intror (or_introl eq_refl))))
             Hlogin). }
  destruct (negb (str_eqb (status user) (py "active"))).
  { apply (Hpick _ (or_intror (or_intror (or_intror (or_intror
                      (or_introl eq_refl))))) Hlogin). }
  apply issue_tokens_outcome in Hlogin as [_ Hok].
  destruct (Hok r eq_refl) as [Hsucc _]. contradiction.
Qed.

(** Whatever [login] does, the table keeps its rows: the same number of
    rows, and every row as it was except that one row may have a new
    last-login time. *)
Theorem login_only_stamps_last_login (email password : str) (w w' : world)
    (o : outcome dict) :
  login P email password w = (o, w') ->
  List.length (session w') = List.length (session w) /\
  forall i u',
    nth_error (session w') i = Some u' ->
    exists u, nth_error (session w) i = Some u /\
              (u' = u \/
               u' = set_last_login_at u (clock w (clock_reads w)) /\
               Schema.email u = email).
Proof.
  rewrite login_unfold. intros Hlogin.
  assert (Hsame : session w' = session w ->
            List.length (session w') = List.length (session w) /\
            forall i u',
              nth_error (session w') i = Some u' ->
              exists u, nth_error (session w) i = Some u /\
                (u' = u \/
                 u' = set_last_login_at u (clock w (clock_reads w)) /\
                 Schema.email u = email)).
  { intros ->. split; [reflexivity|]. intros i u' H. exists u'. auto. }
  destruct (first_from _ 0 (session w)) as [[row user]|] eqn:Efound.
  2:{ injection Hlogin as _ <-. now apply Hsame. }
  destruct (verify_password P password (password_hash user)) as [[|]|e];
    [| injection Hlogin as _ <-; now apply Hsame
     | injection Hlogin as _ <-; now apply Hsame].
  destruct (negb (email_verified user));
    [injection Hlogin as _ <-; now apply Hsame|].
  destruct (str_eqb (status user) (py "suspended"));
    [injection Hlogin as _ <-; now apply Hsame|].
  destruct (str_eqb (status user) (py "banned"));
    [injection Hlogin as _ <-; now apply Hsame|].
  destruct (negb (str_eqb (status user) (py "active")));
    [injection Hlogin as _ <-; now apply Hsame|].
  apply issue_tokens_outcome in Hlogin as [-> _].
  split; [apply replace_nth_length|].
  pose proof (first_from_some _ _ _ _ _ Efound) as (Hp & _ & _ & Hnth).
  rewrite Nat.sub_0_r in Hnth. apply str_eqb_eq in Hp.
  intros i u' Hi. destruct (Nat.eq_dec row i) as [<-|Hne].
  - rewrite (replace_nth_same row _ user _ Hnth) in Hi.
    injection Hi as <-. exists user. auto.
  - rewrite replace_nth_other in Hi by assumption. exists u'. auto.
Qed.

End LoginEffects.

Section RegistrationEffects.
Import Py Schema Runtime Platform Calendar Authentication AuthSvc.
Import Wording Parts.
Variable P : platform.

Lemma hex_digits_length (k : nat) (n : N) (acc : str) :
  List.length (Uuid.hex_digits k n acc) = (k + List.length acc)%nat.
Proof.
  revert n acc. induction k as [|k IH]; intros n acc; simpl; [reflexivity|].
  rewrite IH. simpl. lia.
Qed.

(** The text of a UUID has 36 characters. *)
Lemma uuid_to_str_length (n : N) : List.length (Uuid.to_str n) = 36%nat.
Proof.
  unfold Uuid.to_str.
  assert (H : List.length (Uuid.hex_digits 32 n []) = 32%nat)
    by (rewrite hex_digits_length; reflexivity).
  set (h := Uuid.hex_digits 32 n []) in *. cbv zeta.
  repeat rewrite ?length_app, ?length_firstn, ?length_skipn.
  rewrite H. reflexivity.
Qed.

(** Hashing the password leaves the table alone. *)
Lemma hash_password_session (password : str) (w w' : world)
    (o : outcome str) :
  hash_password P password w = (o, w') -> session w' = session w.
Proof.
  unfold hash_password, Bcrypt.gensalt, urandom16, bind, lift, ret, raise.
  cbn [BCRYPT_ROUNDS Z.ltb Z.compare orb Pos.compare Pos.compare_cont].
  destruct (Utf8.encode password); [|intros [= <- <-]; reflexivity].
  cbn [session].
  destruct (Bcrypt.hashpw P _ _); intros [= <- <-]; reflexivity.
Qed.

(** When [register_user] reports success, every check had passed: the
    email was new, the password met the policy, the date of birth parsed
    and gives at least 18 years, the state is not on the list. The table
    afterwards is the table before plus one row at the end: that email,
    status pending, role user, email unverified, no points, never logged
    in, under a new 36-character identifier, which is the identifier the
    answer reports. *)
Theorem register_user_success (email password dob_text state : str)
    (w w' : world) (r : dict) :
  register_user P email password dob_text state w = (Ret r, w') ->
  get r "success" = Some (VBool true) ->
  first_from (fun u => str_eqb (Schema.email u) email) 0 (session w) = None /\
  get (validate_password_strength P password) "valid" = Some (VBool true) /\
  (exists dob, date_fromisoformat P dob_text = Ret dob /\
               MINIMUM_AGE <= age_on (today w) dob) /\
  str_in (str_upper P state) INELIGIBLE_STATES = false /\
  exists id hashed,
    session w' =
      session w ++ [mkUser (IdStr id) email hashed false None (py "pending")
                           (py "user") None 0 None] /\
    List.length id = 36%nat /\
    get r "user_id" = Some (VStr id) /\
    get r "email" = Some (VStr email).
Proof.
  rewrite register_user_unfold.
  destruct (first_from _ 0 (session w)); [intros [= <- <-]; discriminate|].
  rewrite validate_password_strength_by_rules. unfold validate_by_rules.
  destruct (first_violation (policy_rules P) password);
    [intros [= <- <-]; discriminate|].
  destruct (date_fromisoformat P dob_text) as [dob|e]; [|discriminate].
  destruct (Z.ltb_spec (age_on (today w) dob) MINIMUM_AGE);
    [intros [= <- <-]; discriminate|].
  destruct (str_in (str_upper P state) INELIGIBLE_STATES);
    [intros [= <- <-]; discriminate|].
  intros Hcreate _.
  split; [reflexivity|]. split; [reflexivity|].
  split; [exists dob; split; [reflexivity|assumption]|].
  split; [reflexivity|].
  unfold create_account, bind in Hcreate.
  unfold Uuid.uuid4, urandom16, bind, ret in Hcreate.
  match type of Hcreate with
  | context [hash_password P password ?w0] =>
      destruct (hash_password P password w0) as [[hashed|e] w1] eqn:Hhash;
      [|discriminate];
      pose proof (hash_password_session _ _ _ _ Hhash) as Hs1
  end.
  cbn [session] in Hs1.
  unfold session_add in Hcreate. injection Hcreate as <- <-.
  do 2 eexists. cbn [session]. rewrite Hs1.
  split; [reflexivity|]. split; [apply uuid_to_str_length|].
  split; reflexivity.
Qed.

End RegistrationEffects.

(** ** api/routes/v1/auth.py *)

Section RouteFacts.
Import Py Schema Runtime Platform Authentication AuthSvc.
Import Wording Parts Parts2 Routes Sample2.
Variable P : platform.
Variable W : web.

(** [str.lower] on ASCII text lowers the letters A to Z and keeps the
    rest. *)
Hypothesis lower_ascii :
  forall s, is_ascii s = true -> str_lower W s = ascii_lower s.

Lemma closed_same (w : world) : closed_without_commit w w = w.
Proof. destruct w; reflexivity. Qed.

(** The route, given a failure of the service. *)
Lemma register_on_failure (email password dob_text state message : str)
    (w w' : world) :
  register_user P email password dob_text state w
    = (Ret (failure message), w') ->
  register P W email password dob_text state w =
  (if contains (py "already exists") (str_lower W message) then
     http_error HTTP_409_CONFLICT (VStr message) []
   else if contains (py "password") (str_lower W message) then
     http_error HTTP_422_UNPROCESSABLE_ENTITY (VStr message) []
   else http_error HTTP_400_BAD_REQUEST (VStr message) [],
   closed_without_commit w w').
Proof.
  intros H. unfold register. rewrite H. unfold message_of, failure.
  cbn [item get String.eqb Ascii.eqb Bool.eqb truthy negb].
  destruct (contains (py "already exists") (str_lower W message));
    [reflexivity|].
  destruct (contains (py "password") (str_lower W message)); reflexivity.
Qed.

Lemma policy_message_in (p : str) (m : string) :
  first_violation (policy_rules P) p = Some m ->
  In m ["Password must be at least 12 characters long"%string;
        "Password must contain at least one uppercase letter"%string;
        "Password must contain at least one lowercase letter"%string;
        "Password must contain at least one digit"%string;
        "Password must contain at least one special character"%string].
Proof.
  unfold policy_rules. cbn [first_violation].
  repeat match goal with
         | |- context [if ?c then _ else _] => destruct c
         end; intros [= <-]; simpl; auto 6.
Qed.

Lemma state_message_lower_clean (x y : N) :
  contains (py "already exists")
    (py "registration is not available in " ++ [x; y] ++ py " at this time")
    = false /\
  contains (py "password")
    (py "registration is not available in " ++ [x; y] ++ py " at this time")
    = false.
Proof.
  split; cbn -[N.eqb]; decide_eqbs; cbn [andb orb]; split_eqbs; reflexivity.
Qed.

(** The register route answers each refusal of the service with its own
    status and the service's message as detail, and commits nothing: a
    taken email is 409, a password that breaks the policy is 422, an age
    under 18 is 400, and a two-letter ASCII state code on the list is
    400. *)
Theorem register_route_status_codes
    (email password dob_text state : str) (w : world) :
  let taken :=
    first_from (fun u => str_eqb (Schema.email u) email) 0 (session w) in
  let answer (code : Z) (detail : str) :=
    (Raise (HTTPError (HTTPException code detail [])), w) in
  (taken <> None ->
   register P W email password dob_text state w =
     answer 409 (py "Email address already exists")) /\
  (taken = None ->
   forall m, first_violation (policy_rules P) password = Some m ->
   register P W email password dob_text state w = answer 422 (py m)) /\
  (taken = None ->
   first_violation (policy_rules P) password = None ->
   forall dob, date_fromisoformat P dob_text = Ret dob ->
   (age_on (today w) dob < MINIMUM_AGE ->
    register P W email password dob_text state w = answer 400 age_message) /\
   (MINIMUM_AGE <= age_on (today w) dob ->
    str_in (str_upper P state) INELIGIBLE_STATES = true ->
    List.length state = 2%nat -> is_ascii state = true ->
    register P W email password dob_text state w =
      answer 400 (state_message state))).
Proof.
  intros taken answer. subst taken answer.
  pose proof (register_user_unfold P email password dob_text state w) as Hreg.
  split; [|split].
  - intros Htaken.
    destruct (first_from _ 0 (session w)); [|now contradiction Htaken].
    rewrite (register_on_failure _ _ _ _ _ _ _ Hreg), closed_same.
    rewrite lower_ascii by reflexivity. reflexivity.
  - intros Hnone m Hm. rewrite Hnone, Hm in Hreg.
    rewrite (register_on_failure _ _ _ _ _ _ _ Hreg), closed_same.
    apply policy_message_in in Hm.
    repeat (destruct Hm as [<-|Hm];
            [rewrite lower_ascii by reflexivity; reflexivity|]).
    destruct Hm.
  - intros Hnone Hrules dob Hdob. rewrite Hnone, Hrules, Hdob in Hreg.
    split.
    + intros Hage. apply Z.ltb_lt in Hage. rewrite Hage in Hreg.
      rewrite (register_on_failure _ _ _ _ _ _ _ Hreg), closed_same.
      rewrite lower_ascii by reflexivity. reflexivity.
    + intros Hage Hstate Hlen Hascii. apply Z.ltb_ge in Hage.
      rewrite Hage, Hstate in Hreg.
      rewrite (register_on_failure _ _ _ _ _ _ _ Hreg), closed_same.
      destruct state as [|a [|b [|c rest]]]; try discriminate.
      assert (Hmsg : is_ascii (state_message [a; b]) = true).
      { unfold state_message, is_ascii. rewrite !forallb_app.
        unfold is_ascii in Hascii. rewrite Hascii. reflexivity. }
      rewrite lower_ascii by exact Hmsg.
      unfold state_message, ascii_lower. rewrite !map_app.
      cbn [List.map].
      change (List.map ascii_lower_char (py "Registration is not available in "))
        with (py "registration is not available in ").
      change (List.map ascii_lower_char (py " at this time"))
        with (py " at this time").
      destruct (state_message_lower_clean (ascii_lower_char a)
                  (ascii_lower_char b)) as [-> ->].
      reflexivity.
Qed.

(** The login route, given a failure of the service. *)
Lemma login_on_failure (email password message : str) (w w' : world) :
  AuthSvc.login P email password w = (Ret (failure message), w') ->
  Routes.login P W email password w =
  (if contains (py "invalid") (str_lower W message) then
     http_error HTTP_401_UNAUTHORIZED (VStr message)
       Authorization.www_authenticate
   else http_error HTTP_403_FORBIDDEN (VStr message) [],
   closed_without_commit w w').
Proof.
  intros H. unfold Routes.login. rewrite H. unfold message_of, failure.
  cbn [item get String.eqb Ascii.eqb Bool.eqb truthy negb].
  destruct (contains (py "invalid") (str_lower W message)); reflexivity.
Qed.

(** The login route turns a failed login into an HTTP error whose detail
    is the service's message, and commits nothing: bad credentials
    (unknown email or wrong password) are 401 with the Bearer challenge,
    every other refusal (unverified email, suspended, banned, not
    active) is 403. *)
Theorem login_route_status_codes (email password : str) (w w' : world)
    (r : dict) :
  AuthSvc.login P email password w = (Ret r, w') ->
  get r "success" <> Some (VBool true) ->
  exists message,
    get r "message" = Some (VStr message) /\
    (r = invalid_credentials ->
     Routes.login P W email password w =
       (Raise (HTTPError (HTTPException 401 message
                            Authorization.www_authenticate)), w)) /\
    (r <> invalid_credentials ->
     Routes.login P W email password w =
       (Raise (HTTPError (HTTPException 403 message [])), w)).
Proof.
  intros Hlogin Hfail.
  destruct (login_failure_cases P email password w w' r Hlogin Hfail)
    as [-> Hcases].
  assert (Hroute : forall m,
            r = failure m -> is_ascii m = true ->
            exists message,
              get r "message" = Some (VStr message) /\
              Routes.login P W email password w =
                (if contains (py "invalid") (ascii_lower m)
                 then Raise (HTTPError (HTTPException 401 message
                                          Authorization.www_authenticate))
                 else Raise (HTTPError (HTTPException 403 message [])), w)).
  { intros m -> Hm. exists m. split; [reflexivity|].
    rewrite (login_on_failure _ _ _ _ _ Hlogin), closed_same.
    rewrite lower_ascii by exact Hm.
    destruct (contains (py "invalid") (ascii_lower m)); reflexivity. }
  destruct Hcases as [Hr | Hr].
  - destruct (Hroute _ Hr eq_refl) as (message & Hmsg & Heq).
    exists message. split; [exact Hmsg|]. split.
    + intros _. exact Heq.
    + intros Hne. contradiction.
  - assert (Hne : r <> invalid_credentials).
    { destruct Hr as [-> | [-> | [-> | ->]]]; discriminate. }
    assert (Hm : exists m, r = failure m /\ is_ascii m = true /\
                           contains (py "invalid") (ascii_lower m) = false).
    { destruct Hr as [-> | [-> | [-> | ->]]]; eexists;
        (split; [reflexivity|]); split; reflexivity. }
    destruct Hm as (m & Hrm & Hascii & Hno).
    destruct (Hroute _ Hrm Hascii) as (message & Hmsg & Heq).
    rewrite Hno in Heq.
    exists message. split; [exact Hmsg|]. split.
    + intros Heq'. contradiction.
    + intros _. exact Heq.
Qed.

(** The failures of [refresh_access_token] are failure dicts. *)
Lemma refresh_failure_shape (token : value) (w w' : world) (r : dict) :
  refresh_access_token P token w = (Ret r, w') ->
  get r "success" <> Some (VBool true) ->
  exists message, r = failure message.
Proof.
  destruct (decode_token_run P token w) as (o0 & w1 & Hdec & _).
  destruct o0 as [r0|e].
  2:{ rewrite (refresh_access_token_raises P token w w1 e Hdec).
      discriminate. }
  rewrite (refresh_access_token_unfold P token w w1 r0 Hdec).
  destruct r0 as [claims|]; [|intros [= <- <-] _; eauto].
  destruct (negb (truthy (subject_of claims))); [intros [= <- <-] _; eauto|].
  destruct (first_from _ 0 (session w1)) as [[row user]|];
    [|intros [= <- <-] _; eauto].
  destruct (negb (str_eqb (status user) (py "active")));
    [intros [= <- <-] _; eauto|].
  intros Hre Hfail. apply reissue_outcome in Hre as [_ Hok].
  destruct (Hok r eq_refl) as [Hs _]. contradiction.
Qed.

(** The refresh route answers every failure of the service with 401, the
    Bearer challenge and the service's message, whatever the cause, and
    leaves the table as it was. *)
Theorem refresh_route_failures_are_401 (token : value) (w w' : world)
    (r : dict) :
  refresh_access_token P token w = (Ret r, w') ->
  get r "success" <> Some (VBool true) ->
  exists message w'',
    get r "message" = Some (VStr message) /\
    Routes.refresh_token P W token w =
      (Raise (HTTPError (HTTPException 401 message
                           Authorization.www_authenticate)), w'') /\
    session w'' = session w.
Proof.
  intros Hre Hfail.
  destruct (refresh_failure_shape token w w' r Hre Hfail) as [message ->].
  exists message, (closed_without_commit w w').
  split; [reflexivity|]. split; [|reflexivity].
  unfold Routes.refresh_token. rewrite Hre. reflexivity.
Qed.

Lemma first_from_app_hit (p : User -> bool) (rows : list User) (u : User)
    (i : nat) :
  p u = true -> first_from p i (rows ++ [u]) <> None.
Proof.
  intros Hp. revert i. induction rows as [|r rows IH]; intros i; simpl.
  - rewrite Hp. discriminate.
  - destruct (p r); [discriminate|apply IH].
Qed.

(** What a committed registration leaves in the table. *)
Lemma register_commits_row (email password dob_text state : str)
    (w w' : world) (response : dict) :
  register P W email password dob_text state w = (Ret response, w') ->
  exists u, session w' = session w ++ [u] /\ Schema.email u = email.
Proof.
  unfold register.
  rewrite register_user_unfold.
  assert (Hfail : forall m,
            (let result := failure m in
             match item result "success" with
             | Raise e => (Raise e, closed_without_commit w w)
             | Ret success =>
                 if negb (truthy success) then
                   match message_of result with
                   | Raise e => (Raise e, closed_without_commit w w)
                   | Ret message =>
                       if contains (py "already exists")
                            (str_lower W message)
                       then (http_error HTTP_409_CONFLICT (VStr message) [],
                             closed_without_commit w w)
                       else if contains (py "password") (str_lower W message)
                       then (http_error HTTP_422_UNPROCESSABLE_ENTITY
                               (VStr message) [],
                             closed_without_commit w w)
                       else (http_error HTTP_400_BAD_REQUEST (VStr message)
                               [],
                             closed_without_commit w w)
                   end
                 else (RegisterResponse W result, w)
             end) <> (Ret response, w')).
  { intros m. cbv zeta. unfold message_of, failure.
    cbn [item get String.eqb Ascii.eqb Bool.eqb truthy negb].
    destruct (contains _ _); [discriminate|].
    destruct (contains _ _); discriminate. }
  destruct (first_from _ 0 (session w)).
  { intros H. now apply Hfail in H. }
  destruct (first_violation (policy_rules P) password).
  { intros H. now apply Hfail in H. }
  destruct (date_fromisoformat P dob_text) as [dob|e]; [|discriminate].
  destruct (age_on (today w) dob <? MINIMUM_AGE).
  { intros H. now apply Hfail in H. }
  destruct (str_in (str_upper P state) INELIGIBLE_STATES).
  { intros H. now apply Hfail in H. }
  destruct (create_account P email password w) as [[r|e] w1] eqn:Hcreate;
    [|discriminate].
  unfold create_account, Uuid.uuid4, urandom16, bind, ret in Hcreate.
  match type of Hcreate with
  | context [hash_password P password ?w0] =>
      destruct (hash_password P password w0) as [[hashed|e] w2] eqn:Hhash;
      [|discriminate];
      pose proof (hash_password_session _ _ _ _ _ Hhash) as Hs2
  end.
  cbn [session] in Hs2.
  unfold session_add in Hcreate. injection Hcreate as <- <-.
  cbn [item get String.eqb Ascii.eqb Bool.eqb truthy negb].
  intros [= _ <-]. cbn [session]. rewrite Hs2.
  eexists. split; reflexivity.
Qed.

(** An email registers once: after a registration that the route
    answered normally, every later registration with that email is
    answered 409, whatever password, date of birth and state it
    brings, and adds nothing to the table. *)
Theorem email_registers_once (email password dob_text state : str)
    (w w' : world) (response : dict) :
  register P W email password dob_text state w = (Ret response, w') ->
  forall password' dob_text' state',
    register P W email password' dob_text' state' w' =
      (Raise (HTTPError (HTTPException 409
                           (py "Email address already exists") [])), w').
Proof.
  intros Hfirst password' dob_text' state'.
  destruct (register_commits_row _ _ _ _ _ _ _ Hfirst) as (u & Hs & Hu).
  pose proof (register_user_unfold P email password' dob_text' state' w')
    as Hreg.
  rewrite Hs in Hreg.
  destruct (first_from (fun u0 => str_eqb (Schema.email u0) email) 0
              (session w ++ [u])) eqn:Ehit.
  2:{ exfalso. revert Ehit. apply first_from_app_hit.
      apply str_eqb_eq. exact Hu. }
  rewrite (register_on_failure _ _ _ _ _ _ _ Hreg), closed_same.
  rewrite lower_ascii by reflexivity. reflexivity.
Qed.

End RouteFacts.

(** ** Tokens presented to the authorization gate *)

Section PresentingTokens.
Import Py Schema Runtime Platform Authentication Authorization Parts2.
Variable P : platform.

(** A token whose subject is the key of a row, presented before it
    expires, resolves to that row: [get_current_user] returns the row
    when it is active, and otherwise raises 403 with the row's status in
    the detail (the token itself being valid). The two key files must be
    one key pair. *)
Theorem valid_token_resolves_to_its_row (uid : ident) (email role : str)
    (delta : option Z) (w w1 : world) (t : value) (row : nat) (user : User) :
  private_key_file P = public_key_file P ->
  create_access_token P uid email role delta w = (Ret t, w1) ->
  Calendar.timegm (clock w (S (clock_reads w))) <=
    Calendar.timegm
      (clock w (clock_reads w) +
       match delta with
       | None => Calendar.timedelta 0 ACCESS_TOKEN_EXPIRE_MINUTES
       | Some d => d
       end) ->
  str_of_ident uid <> [] ->
  first_from (user_id_is (VStr (str_of_ident uid))) 0 (session w)
    = Some (row, user) ->
  exists w2,
    get_current_user P t w1 =
      (if str_eqb (status user) (py "active") then Ret user
       else Raise (HTTPError (HTTPException 403 (inactive_detail user) [])),
       w2) /\
    str_of_ident (user_id user) = str_of_ident uid.
Proof.
  intros Hkeys Hcreate Hfresh Hsub Hfound.
  pose proof Hcreate as Hrun.
  apply create_access_token_run in Hrun as [_ Hw1].
  assert (Hfresh' :
            Calendar.timegm (clock w1 (clock_reads w1)) <=
            Calendar.timegm
              (clock w (clock_reads w) +
               match delta with
               | None => Calendar.timedelta 0 ACCESS_TOKEN_EXPIRE_MINUTES
               | Some d => d
               end))
    by (rewrite Hw1; exact Hfresh).
  destruct (access_token_decodes P uid email role delta w w1 t Hkeys Hcreate
              Hfresh') as (claims & w2 & Hdec & Hsubc & Hw2).
  exists w2. split.
  - unfold get_current_user, bind. rewrite Hdec, Hsubc. cbn [truthy].
    destruct (str_of_ident uid) as [|c rest] eqn:Es;
      [now contradiction Hsub|].
    cbn [negb]. unfold query_first.
    assert (Hs2 : session w2 = session w) by (rewrite Hw2, Hw1; reflexivity).
    rewrite Hs2, Hfound.
    destruct (str_eqb (status user) (py "active")); reflexivity.
  - apply first_from_some in Hfound as (Hp & _).
    unfold user_id_is in Hp. now apply str_eqb_eq in Hp.
Qed.

End PresentingTokens.

(** ** security/authorization.py: the role gate *)

Section RoleGate.
Import Py Schema Authorization.

Lemma str_in_In (x : str) (xs : list str) :
  str_in x xs = true <-> In x xs.
Proof.
  unfold str_in. rewrite existsb_exists. split.
  - intros (y & Hy & Heq). apply str_eqb_eq in Heq. now subst.
  - intros H. exists x. split; [exact H|apply str_eqb_refl].
Qed.

(** [require_role] lets a user through, unchanged, exactly when the
    user's role is one of the roles listed; otherwise it raises 403 and
    names the listed roles. So a gate with no roles refuses everyone, and
    listing more roles never refuses a user a shorter list let
    through. *)
Theorem require_role_accepts_listed_roles (roles more : list str)
    (u : User) :
  (require_role roles u = Ret u <-> In (role u) roles) /\
  (forall v, require_role roles u = Ret v -> v = u) /\
  (~ In (role u) roles ->
   require_role roles u =
     Raise (HTTPError (HTTPException 403
              (py "Insufficient permissions. Required role: " ++
               join (py ", ") roles) []))) /\
  (exists e, require_role [] u = Raise (HTTPError e)) /\
  (require_role roles u = Ret u -> require_role (roles ++ more) u = Ret u).
Proof.
  assert (Hiff : forall rs, require_role rs u = Ret u <-> In (role u) rs).
  { intros rs. rewrite <- str_in_In. unfold require_role.
    destruct (str_in (role u) rs); cbn [negb]; split; intro H;
      try reflexivity; discriminate. }
  split; [apply Hiff|]. split; [|split; [|split]].
  - unfold require_role. destruct (negb _); intros v [= <-]. reflexivity.
  - intros Hnot. rewrite <- str_in_In in Hnot. unfold require_role.
    destruct (str_in (role u) roles); [now contradiction Hnot|]. reflexivity.
  - eexists. reflexivity.
  - rewrite !Hiff. intros H. apply in_or_app. auto.
Qed.

End RoleGate.

(** ** models/user.py and models/base.py *)

Section ModelFacts.
Import Py Schema Runtime UserModel BaseModel.

(** Verifying an email a second time changes only the time of
    verification: the status, the verified flag and every other column
    stay as the first call left them. The first call itself touches only
    the flag, the time and the status. *)
Theorem verify_email_twice (u : User) (w : world) :
  exists u1 w1 u2 w2,
    verify_email u w = (Ret u1, w1) /\
    verify_email u1 w1 = (Ret u2, w2) /\
    email_verified u1 = true /\
    email_verified_at u1 = Some (clock w (clock_reads w)) /\
    (user_id u1, email u1, password_hash u1, role u1,
     premium_expires_at u1, point_balance u1, last_login_at u1) =
    (user_id u, email u, password_hash u, role u,
     premium_expires_at u, point_balance u, last_login_at u) /\
    u2 = mkUser (user_id u1) (email u1) (password_hash u1) true
                (Some (clock w (S (clock_reads w)))) (status u1) (role u1)
                (premium_expires_at u1) (point_balance u1)
                (last_login_at u1) /\
    is_active u2 = is_active u1.
Proof.
  unfold verify_email, bind, ret. rewrite !datetime_now_run.
  do 4 eexists. split; [reflexivity|]. split; [reflexivity|].
  cbn [email_verified email_verified_at user_id email password_hash role
       premium_expires_at point_balance last_login_at status clock
       clock_reads].
  split; [reflexivity|]. split; [reflexivity|]. split; [reflexivity|].
  assert (Hst : (if str_eqb
                      (if str_eqb (status u) (py "pending")
                       then py "active" else status u) (py "pending")
                 then py "active"
                 else if str_eqb (status u) (py "pending")
                      then py "active" else status u) =
                (if str_eqb (status u) (py "pending")
                 then py "active" else status u)).
  { destruct (str_eqb (status u) (py "pending")) eqn:E.
    - reflexivity.
    - rewrite E. reflexivity. }
  rewrite Hst. split; reflexivity.
Qed.

(** [is_premium] answers true exactly when the role is premium and an
    expiry is stored that lies strictly after the time read; an expiry
    equal to the current time already counts as expired. It always
    answers. *)
Theorem is_premium_iff (u : User) (w : world) :
  exists b w',
    is_premium u w = (Ret b, w') /\
    (b = true <->
     role u = py "premium" /\
     exists t, premium_expires_at u = Some t /\
               clock w (clock_reads w) < t).
Proof.
  unfold is_premium.
  destruct (str_eqb (role u) (py "premium")) eqn:Erole; cbn [negb].
  - apply str_eqb_eq in Erole.
    destruct (premium_expires_at u) as [t|] eqn:Et.
    + unfold bind, ret. rewrite datetime_now_run.
      do 2 eexists. split; [reflexivity|].
      rewrite Z.ltb_lt. split.
      * intros H. split; [exact Erole|]. exists t. auto.
      * intros (_ & t' & [= <-] & H). exact H.
    + do 2 eexists. split; [reflexivity|]. split; [discriminate|].
      intros (_ & t & Ht & _). discriminate.
  - apply str_eqb_neq in Erole.
    do 2 eexists. split; [reflexivity|]. split; [discriminate|].
    intros (H & _). contradiction.
Qed.

(** Soft deletion and restoring undo each other: after [soft_delete] the
    record counts as deleted and carries the time read, whatever it
    carried before; after [restore] it does not count as deleted; and
    restoring a record just deleted gives the same record as restoring
    the original. *)
Theorem soft_delete_restore (x : SoftDeleteMixin) (w : world) :
  exists y w',
    soft_delete x w = (Ret y, w') /\
    is_deleted y = true /\
    deleted_at y = Some (clock w (clock_reads w)) /\
    is_deleted (restore y) = false /\
    restore y = restore x /\
    session w' = session w.
Proof.
  unfold soft_delete, bind, ret. rewrite datetime_now_run.
  do 2 eexists. repeat split.
Qed.

End ModelFacts.

(** ** services/auth_service.py: more on the age and on the checks *)

Section AgeOrder.
Import Py Schema Runtime Platform Calendar AuthSvc Wording Parts.

Lemma pair_ltb_spec (a b : Z * Z) :
  pair_ltb a b = true <->
  fst a < fst b \/ (fst a = fst b /\ snd a < snd b).
Proof.
  unfold pair_ltb.
  rewrite orb_true_iff, andb_true_iff, !Z.ltb_lt, Z.eqb_eq. tauto.
Qed.

Lemma date_leb_spec (a b : date) :
  date_leb a b = true <->
  year a < year b \/
  (year a = year b /\
   (month a < month b \/ (month a = month b /\ day a <= day b))).
Proof.
  unfold date_leb.
  rewrite orb_true_iff, andb_true_iff, negb_true_iff, Z.ltb_lt, Z.eqb_eq.
  rewrite <- not_true_iff_false, pair_ltb_spec. cbn [fst snd]. lia.
Qed.

(** The age never goes down as the calendar advances and is never
    larger for a later date of birth; a date of birth that is today or
    later gives an age of zero or less. No date needs to be a real
    calendar date for this. *)
Theorem age_on_monotone (t1 t2 b1 b2 : date) :
  (date_leb t1 t2 = true -> age_on t1 b1 <= age_on t2 b1) /\
  (date_leb b1 b2 = true -> age_on t1 b2 <= age_on t1 b1) /\
  (date_leb t1 b1 = true -> age_on t1 b1 <= 0).
Proof.
  assert (Hage : forall t b,
            (pair_ltb (month t, day t) (month b, day b) = true /\
             age_on t b = year t - year b - 1) \/
            (pair_ltb (month t, day t) (month b, day b) = false /\
             age_on t b = year t - year b)).
  { intros t b. unfold age_on. destruct (pair_ltb _ _); auto. }
  assert (Hfalse : forall a b, pair_ltb a b = false <->
            ~ (fst a < fst b \/ (fst a = fst b /\ snd a < snd b))).
  { intros a b. rewrite <- pair_ltb_spec. symmetry.
    apply not_true_iff_false. }
  split; [|split]; rewrite date_leb_spec; intros Hle.
  - destruct (Hage t1 b1) as [[H1 ->]|[H1 ->]],
             (Hage t2 b1) as [[H2 ->]|[H2 ->]];
      repeat match goal with
             | H : pair_ltb _ _ = true |- _ => apply pair_ltb_spec in H
             | H : pair_ltb _ _ = false |- _ => apply Hfalse in H
             end;
      cbn [fst snd] in H1, H2; lia.
  - destruct (Hage t1 b1) as [[H1 ->]|[H1 ->]],
             (Hage t1 b2) as [[H2 ->]|[H2 ->]];
      repeat match goal with
             | H : pair_ltb _ _ = true |- _ => apply pair_ltb_spec in H
             | H : pair_ltb _ _ = false |- _ => apply Hfalse in H
             end;
      cbn [fst snd] in H1, H2; lia.
  - destruct (Hage t1 b1) as [[H1 ->]|[H1 ->]];
      repeat match goal with
             | H : pair_ltb _ _ = true |- _ => apply pair_ltb_spec in H
             | H : pair_ltb _ _ = false |- _ => apply Hfalse in H
             end;
      cbn [fst snd] in H1; lia.
Qed.

End AgeOrder.

Section CheckOrder.
Import Py Schema Runtime Platform Calendar Authentication AuthSvc.
Import Wording Parts.
Variable P : platform.

(** The checks of [register_user] stop at the first that fails, in the
    order email, password, date of birth: a taken email is reported
    whatever the password, the date and the state are; with a new email
    a password that breaks the policy is reported whatever the date and
    the state are, with the policy's own message; and with both in order
    a date of birth that does not parse is no failure result at all, it
    raises the parser's exception. The process state is untouched on all
    three paths. *)
Theorem register_user_check_order (email password dob_text state : str)
    (w : world) :
  let taken :=
    first_from (fun u => str_eqb (Schema.email u) email) 0 (session w) in
  (taken <> None ->
   register_user P email password dob_text state w =
     (Ret (failure (py "Email address already exists")), w)) /\
  (taken = None ->
   get (validate_password_strength P password) "valid"
     <> Some (VBool true) ->
   exists message,
     get (validate_password_strength P password) "message"
       = Some (VStr message) /\
     register_user P email password dob_text state w =
       (Ret (failure message), w)) /\
  (taken = None ->
   get (validate_password_strength P password) "valid"
     = Some (VBool true) ->
   forall e, date_fromisoformat P dob_text = Raise e ->
   register_user P email password dob_text state w = (Raise e, w)).
Proof.
  intros taken. subst taken. rewrite register_user_unfold.
  rewrite validate_password_strength_by_rules. unfold validate_by_rules.
  split; [|split].
  - intros H. destruct (first_from _ 0 (session w));
      [reflexivity | now contradiction H].
  - intros -> Hweak.
    destruct (first_violation (policy_rules P) password) as [m|].
    + exists (py m). split; reflexivity.
    + now contradiction Hweak.
  - intros -> Hok e He.
    destruct (first_violation (policy_rules P) password);
      [discriminate|].
    now rewrite He.
Qed.

End CheckOrder.

(** ** The properties above at concrete inputs *)

Lemma access_token_round_trip_witness :
  let P := Sample.platform0 in
  let w := Sample.world1 in
  let t := Sample.returned Py.VNone Sample2.alice_access_token in
  let w' := snd Sample2.alice_access_token in
  Platform.private_key_file P = Platform.public_key_file P /\
  Sample2.alice_access_token = (Py.Ret t, w') /\
  exists claims w'',
    Authentication.decode_token P t w' = (Py.Ret (Some claims), w'') /\
    Py.get claims "sub" = Some (Py.VStr Sample.alice_id).
Proof.
  intros P w t w'.
  assert (H1 : Platform.private_key_file P = Platform.public_key_file P)
    by reflexivity.
  assert (H2 : Authentication.create_access_token P
                 (Schema.IdStr Sample.alice_id) Sample2.alice_email
                 (py "user") None w = (Py.Ret t, w')) by reflexivity.
  split; [exact H1|]. split; [exact H2|].
  destruct (access_token_round_trip P (Schema.IdStr Sample.alice_id)
              Sample2.alice_email (py "user") None w w' t H1 H2)
    as (claims & w'' & Hd & Hs & _).
  - vm_compute. discriminate.
  - exists claims, w''. split; [exact Hd | exact Hs].
Defined.

Lemma expired_token_is_refused_witness :
  let P := Sample.platform0 in
  let w := Sample.world1 in
  let t := Sample.returned Py.VNone Sample2.stale_token in
  let w' := snd Sample2.stale_token in
  -1000000 <= -1000000 /\
  Runtime.clock w (Runtime.clock_reads w) <=
    Runtime.clock w (S (Runtime.clock_reads w)) /\
  Sample2.stale_token = (Py.Ret t, w') /\
  exists w'', Authentication.decode_token P t w' = (Py.Ret None, w'').
Proof.
  intros P w t w'.
  assert (H1 : -1000000 <= -1000000) by lia.
  assert (H2 : Runtime.clock w (Runtime.clock_reads w) <=
               Runtime.clock w (S (Runtime.clock_reads w)))
    by (vm_compute; discriminate).
  assert (H3 : Authentication.create_access_token P
                 (Schema.IdStr Sample.alice_id) Sample2.alice_email
                 (py "user") (Some (-1000000)) w = (Py.Ret t, w'))
    by reflexivity.
  split; [exact H1|]. split; [exact H2|]. split; [exact H3|].
  exact (expired_token_is_refused P (Schema.IdStr Sample.alice_id)
           Sample2.alice_email (py "user") (-1000000) w w' t H1 H2 H3).
Defined.

Lemma refresh_access_token_outcomes_witness :
  let P := Sample.platform0 in
  let token := Sample.returned Py.VNone Sample.alice_refresh_token in
  let w := snd Sample.alice_refresh_token in
  let r := Sample.returned [] Sample.alice_refresh in
  let w' := snd Sample.alice_refresh in
  AuthSvc.refresh_access_token P token w = (Py.Ret r, w') /\
  Py.get r "success" = Some (Py.VBool true) /\
  Runtime.session w' = Runtime.session w /\
  Py.get r "refresh_token" = None.
Proof.
  intros P token w r w'.
  assert (H1 : AuthSvc.refresh_access_token P token w = (Py.Ret r, w'))
    by reflexivity.
  assert (H2 : Py.get r "success" = Some (Py.VBool true))
    by reflexivity.
  split; [exact H1|]. split; [exact H2|].
  destruct (refresh_access_token_outcomes P token w w' (Py.Ret r) H1)
    as [Hs Hok].
  split; [exact Hs|]. exact (proj1 (Hok r eq_refl H2)).
Defined.

Lemma access_token_refreshes_witness :
  let P := Sample.platform0 in
  let w := Sample.world1 in
  let t := Sample.returned Py.VNone Sample2.alice_access_token in
  let w1 := snd Sample2.alice_access_token in
  let user := Sample.alice (py "active") true in
  Platform.private_key_file P = Platform.public_key_file P /\
  Sample2.alice_access_token = (Py.Ret t, w1) /\
  Sample.alice_id <> [] /\
  Runtime.first_from
    (Authorization.user_id_is (Py.VStr Sample.alice_id)) 0
    (Runtime.session w) = Some (0%nat, user) /\
  Schema.status user = py "active" /\
  Jose.claim t "type" = None /\
  exists r w2,
    AuthSvc.refresh_access_token P t w1 = (Py.Ret r, w2) /\
    Py.get r "success" = Some (Py.VBool true).
Proof.
  intros P w t w1 user.
  assert (H1 : Platform.private_key_file P = Platform.public_key_file P)
    by reflexivity.
  assert (H2 : Authentication.create_access_token P
                 (Schema.IdStr Sample.alice_id) Sample2.alice_email
                 (py "user") None w = (Py.Ret t, w1)) by reflexivity.
  assert (H3 : Authentication.str_of_ident (Schema.IdStr Sample.alice_id)
               <> []) by (vm_compute; discriminate).
  assert (H4 : Runtime.first_from
                 (Authorization.user_id_is
                    (Py.VStr (Authentication.str_of_ident
                                (Schema.IdStr Sample.alice_id)))) 0
                 (Runtime.session w) = Some (0%nat, user))
    by reflexivity.
  assert (H5 : Schema.status user = py "active") by reflexivity.
  split; [exact H1|]. split; [exact H2|]. split; [exact H3|].
  split; [exact H4|]. split; [exact H5|].
  apply (access_token_refreshes P (Schema.IdStr Sample.alice_id)
           Sample2.alice_email (py "user") w w1 t 0%nat user H1 H2 H3 H4 H5).
  - vm_compute. discriminate.
  - split; vm_compute; discriminate.
Defined.

Lemma login_success_requirements_witness :
  let P := Sample.platform0 in
  let w := Sample.world1 in
  let r := Sample.returned [] Sample.alice_login in
  let w' := snd Sample.alice_login in
  AuthSvc.login P Sample2.alice_email Sample.strong_password w
    = (Py.Ret r, w') /\
  Py.get r "success" = Some (Py.VBool true) /\
  exists row user,
    Runtime.first_from
      (fun u => Py.str_eqb (Schema.email u) Sample2.alice_email) 0
      (Runtime.session w) = Some (row, user) /\
    Schema.email_verified user = true /\
    Schema.status user = py "active".
Proof.
  intros P w r w'.
  assert (H1 : AuthSvc.login P Sample2.alice_email Sample.strong_password w
               = (Py.Ret r, w')) by reflexivity.
  assert (H2 : Py.get r "success" = Some (Py.VBool true))
    by reflexivity.
  split; [exact H1|]. split; [exact H2|].
  destruct (login_success_requirements P Sample2.alice_email
              Sample.strong_password w w' r H1 H2)
    as (row & user & Hf & _ & _ & Hv & Ha & _).
  exists row, user. split; [exact Hf|]. split; [exact Hv | exact Ha].
Defined.

Lemma login_failure_classification_witness :
  let P := Sample.platform0 in
  let w := Sample.world1 in
  let r := Sample.returned [] Sample2.alice_wrong_login in
  let w' := snd Sample2.alice_wrong_login in
  AuthSvc.login P Sample2.alice_email (py "WrongPassword123!") w
    = (Py.Ret r, w') /\
  Py.get r "success" <> Some (Py.VBool true) /\
  w' = w.
Proof.
  intros P w r w'.
  assert (H1 : AuthSvc.login P Sample2.alice_email (py "WrongPassword123!") w
               = (Py.Ret r, w')) by reflexivity.
  assert (H2 : Py.get r "success" <> Some (Py.VBool true))
    by (vm_compute; discriminate).
  split; [exact H1|]. split; [exact H2|].
  exact (proj1 (login_failure_classification P Sample2.alice_email
                  (py "WrongPassword123!") w w' r H1 H2)).
Defined.

Lemma login_only_stamps_last_login_witness :
  let P := Sample.platform0 in
  let w := Sample.world1 in
  let o := fst Sample.alice_login in
  let w' := snd Sample.alice_login in
  AuthSvc.login P Sample2.alice_email Sample.strong_password w = (o, w') /\
  List.length (Runtime.session w') = List.length (Runtime.session w).
Proof.
  intros P w o w'.
  assert (H1 : AuthSvc.login P Sample2.alice_email Sample.strong_password w
               = (o, w')) by reflexivity.
  split; [exact H1|].
  exact (proj1 (login_only_stamps_last_login P Sample2.alice_email
                  Sample.strong_password w w' o H1)).
Defined.

Lemma register_user_success_witness :
  let P := Sample.platform0 in
  let w := Sample.world0 [] in
  let r := Sample.returned [] Sample2.bob_registration in
  let w' := snd Sample2.bob_registration in
  AuthSvc.register_user P Sample2.bob_email Sample.strong_password
    (py "1990-01-15") (py "TX") w = (Py.Ret r, w') /\
  Py.get r "success" = Some (Py.VBool true) /\
  exists id hashed,
    Runtime.session w' =
      Runtime.session w ++
      [Schema.mkUser (Schema.IdStr id) Sample2.bob_email hashed false None
         (py "pending") (py "user") None 0 None] /\
    List.length id = 36%nat.
Proof.
  intros P w r w'.
  assert (H1 : AuthSvc.register_user P Sample2.bob_email
                 Sample.strong_password (py "1990-01-15") (py "TX") w
               = (Py.Ret r, w')) by reflexivity.
  assert (H2 : Py.get r "success" = Some (Py.VBool true))
    by reflexivity.
  split; [exact H1|]. split; [exact H2|].
  destruct (register_user_success P Sample2.bob_email Sample.strong_password
              (py "1990-01-15") (py "TX") w w' r H1 H2)
    as (_ & _ & _ & _ & id & hashed & Hs & Hl & _).
  exists id, hashed. split; [exact Hs | exact Hl].
Defined.

Lemma register_route_status_codes_witness :
  let P := Sample.platform0 in
  let W := Sample2.web0 in
  let w := Sample.world1 in
  (forall s, Sample2.is_ascii s = true ->
             Routes.str_lower W s = Sample2.ascii_lower s) /\
  Runtime.first_from
    (fun u => Py.str_eqb (Schema.email u) Sample2.alice_email) 0
    (Runtime.session w) <> None /\
  Routes.register P W Sample2.alice_email Sample.strong_password
    (py "1990-01-15") (py "TX") w =
    (Py.Raise (Py.HTTPError
                 (Py.HTTPException 409 (py "Email address already exists")
                    [])), w).
Proof.
  intros P W w.
  assert (H0 : forall s, Sample2.is_ascii s = true ->
                         Routes.str_lower W s = Sample2.ascii_lower s)
    by (intros s _; reflexivity).
  assert (H1 : Runtime.first_from
                 (fun u => Py.str_eqb (Schema.email u) Sample2.alice_email) 0
                 (Runtime.session w) <> None) by (vm_compute; discriminate).
  split; [exact H0|]. split; [exact H1|].
  exact (proj1 (register_route_status_codes P W H0 Sample2.alice_email
                  Sample.strong_password (py "1990-01-15") (py "TX") w) H1).
Defined.

Lemma login_route_status_codes_witness :
  let P := Sample.platform0 in
  let W := Sample2.web0 in
  let w := Sample.world1 in
  let r := Sample.returned [] Sample2.alice_wrong_login in
  let w' := snd Sample2.alice_wrong_login in
  (forall s, Sample2.is_ascii s = true ->
             Routes.str_lower W s = Sample2.ascii_lower s) /\
  AuthSvc.login P Sample2.alice_email (py "WrongPassword123!") w
    = (Py.Ret r, w') /\
  Py.get r "success" <> Some (Py.VBool true) /\
  exists message,
    Py.get r "message" = Some (Py.VStr message) /\
    Routes.login P W Sample2.alice_email (py "WrongPassword123!") w =
      (Py.Raise (Py.HTTPError
                   (Py.HTTPException 401 message
                      Authorization.www_authenticate)), w).
Proof.
  intros P W w r w'.
  assert (H0 : forall s, Sample2.is_ascii s = true ->
                         Routes.str_lower W s = Sample2.ascii_lower s)
    by (intros s _; reflexivity).
  assert (H1 : AuthSvc.login P Sample2.alice_email (py "WrongPassword123!") w
               = (Py.Ret r, w')) by reflexivity.
  assert (H2 : Py.get r "success" <> Some (Py.VBool true))
    by (vm_compute; discriminate).
  split; [exact H0|]. split; [exact H1|]. split; [exact H2|].
  destruct (login_route_status_codes P W H0 Sample2.alice_email
              (py "WrongPassword123!") w w' r H1 H2)
    as (message & Hmsg & H401 & _).
  exists message. split; [exact Hmsg|]. apply H401. reflexivity.
Defined.

Lemma refresh_route_failures_are_401_witness :
  let P := Sample.platform0 in
  let W := Sample2.web0 in
  let w := Sample.world1 in
  let token := Py.VStr (py "invalid.token.here") in
  let r := Sample.returned [] Sample2.bad_refresh in
  let w' := snd Sample2.bad_refresh in
  AuthSvc.refresh_access_token P token w = (Py.Ret r, w') /\
  Py.get r "success" <> Some (Py.VBool true) /\
  exists message w'',
    Py.get r "message" = Some (Py.VStr message) /\
    Routes.refresh_token P W token w =
      (Py.Raise (Py.HTTPError
                   (Py.HTTPException 401 message
                      Authorization.www_authenticate)), w'') /\
    Runtime.session w'' = Runtime.session w.
Proof.
  intros P W w token r w'.
  assert (H1 : AuthSvc.refresh_access_token P token w = (Py.Ret r, w'))
    by reflexivity.
  assert (H2 : Py.get r "success" <> Some (Py.VBool true))
    by (vm_compute; discriminate).
  split; [exact H1|]. split; [exact H2|].
  exact (refresh_route_failures_are_401 P W token w w' r H1 H2).
Defined.

Lemma email_registers_once_witness :
  let P := Sample.platform0 in
  let W := Sample2.web0 in
  let w := Sample.world0 [] in
  let response := Sample.returned [] Sample2.bob_registration_route in
  let w' := snd Sample2.bob_registration_route in
  (forall s, Sample2.is_ascii s = true ->
             Routes.str_lower W s = Sample2.ascii_lower s) /\
  Routes.register P W Sample2.bob_email Sample.strong_password
    (py "1990-01-15") (py "TX") w = (Py.Ret response, w') /\
  Routes.register P W Sample2.bob_email (py "AnotherP@ssw0rd456!")
    (py "1985-03-02") (py "CA") w' =
    (Py.Raise (Py.HTTPError
                 (Py.HTTPException 409 (py "Email address already exists")
                    [])), w').
Proof.
  intros P W w response w'.
  assert (H0 : forall s, Sample2.is_ascii s = true ->
                         Routes.str_lower W s = Sample2.ascii_lower s)
    by (intros s _; reflexivity).
  assert (H1 : Routes.register P W Sample2.bob_email Sample.strong_password
                 (py "1990-01-15") (py "TX") w = (Py.Ret response, w'))
    by reflexivity.
  split; [exact H0|]. split; [exact H1|].
  exact (email_registers_once P W H0 Sample2.bob_email
           Sample.strong_password (py "1990-01-15") (py "TX") w w' response
           H1 (py "AnotherP@ssw0rd456!") (py "1985-03-02") (py "CA")).
Defined.

Lemma valid_token_resolves_to_its_row_witness :
  let P := Sample.platform0 in
  let w := Sample.world1 in
  let t := Sample.returned Py.VNone Sample2.alice_access_token in
  let w1 := snd Sample2.alice_access_token in
  let user := Sample.alice (py "active") true in
  Platform.private_key_file P = Platform.public_key_file P /\
  Sample2.alice_access_token = (Py.Ret t, w1) /\
  Sample.alice_id <> [] /\
  Runtime.first_from
    (Authorization.user_id_is (Py.VStr Sample.alice_id)) 0
    (Runtime.session w) = Some (0%nat, user) /\
  exists w2, Authorization.get_current_user P t w1 = (Py.Ret user, w2).
Proof.
  intros P w t w1 user.
  assert (H1 : Platform.private_key_file P = Platform.public_key_file P)
    by reflexivity.
  assert (H2 : Authentication.create_access_token P
                 (Schema.IdStr Sample.alice_id) Sample2.alice_email
                 (py "user") None w = (Py.Ret t, w1)) by reflexivity.
  assert (H3 : Authentication.str_of_ident (Schema.IdStr Sample.alice_id)
               <> []) by (vm_compute; discriminate).
  assert (H4 : Runtime.first_from
                 (Authorization.user_id_is
                    (Py.VStr (Authentication.str_of_ident
                                (Schema.IdStr Sample.alice_id)))) 0
                 (Runtime.session w) = Some (0%nat, user))
    by reflexivity.
  split; [exact H1|]. split; [exact H2|]. split; [exact H3|].
  split; [exact H4|].
  destruct (valid_token_resolves_to_its_row P (Schema.IdStr Sample.alice_id)
              Sample2.alice_email (py "user") None w w1 t 0%nat user H1 H2)
    as (w2 & Hg & _).
  - vm_compute. discriminate.
  - exact H3.
  - exact H4.
  - exists w2. exact Hg.
Defined.
